(** * CircuitPython_Button_Handler: the button classification state machine

    A shallow embedding of [button_handler.py] and the properties its
    specification states about it.

    Conventions of the embedding:
    - Python [int] is [Z]; tick values are plain integers and the wrap-around
      of [timestamp_diff] is the mask written in the source.
    - Durations of the configuration ([multi_press_interval],
      [long_press_threshold]) are integer tick counts, as the defaults are.
    - [str] is [string] over ASCII characters.
    - A method that mutates [self] takes the object and returns the mutated
      object next to its outcome; the outcome of a call that can raise is a
      [result], and the mutated object is returned in both cases, as an
      exception does not undo the assignments made before it.
    - A Python [set] of [ButtonInput] is a duplicate-free list under the
      class's own [__eq__], in insertion order. *)

From Stdlib Require Import ZArith List String Ascii Bool Lia.
From Stdlib Require Import Decimal DecimalString DecimalZ DecimalPos.
Import ListNotations.

#[local] Open Scope Z_scope.

(** ** Python builtins used by the source *)

Inductive exn : Type :=
| ValueError (msg : string)
| TypeError
| IndexError.

Inductive result (A : Type) : Type :=
| Ok (a : A)
| Raise (e : exn).

Arguments Ok {A} a.
Arguments Raise {A} e.

Definition is_ok {A : Type} (r : result A) : bool :=
  match r with Ok _ => true | Raise _ => false end.

Module Py.

(** The whitespace that [int] skips around a number on CircuitPython:
    tab, LF, VT, FF, CR and space. *)
Definition isspace (c : ascii) : bool :=
  let n := nat_of_ascii c in
  ((9 <=? n)%nat && (n <=? 13)%nat) || (n =? 32)%nat.

Fixpoint lstrip (s : string) : string :=
  match s with
  | EmptyString => EmptyString
  | String c r => if isspace c then lstrip r else s
  end.

Fixpoint rstrip (s : string) : string :=
  match s with
  | EmptyString => EmptyString
  | String c r =>
      match rstrip r with
      | EmptyString => if isspace c then EmptyString else String c EmptyString
      | r' => String c r'
      end
  end.

Definition strip (s : string) : string := rstrip (lstrip s).

(** A non-empty run of decimal digits, read in base ten. *)
Definition digits (s : string) : result Z :=
  match NilZero.uint_of_string s with
  | Some u => Ok (Z.of_uint u)
  | None => Raise (ValueError "invalid literal for int() with base 10")
  end.

(** [int(s)] for a string [s]: surrounding whitespace is dropped, one sign
    is allowed, and the rest must be a non-empty run of digits.  (Digit
    grouping with underscores cannot occur here: the only caller passes the
    part of a string before its first underscore.) *)
Definition int (s : string) : result Z :=
  match strip s with
  | String "+"%char d => digits d
  | String "-"%char d =>
      match digits d with
      | Ok n => Ok (- n)
      | Raise e => Raise e
      end
  | body => digits body
  end.

(** [str(n)] for an integer [n], as an f-string field renders it. *)
Definition str (n : Z) : string := NilZero.string_of_int (Z.to_int n).

(** [s.endswith(suffix)]. *)
Fixpoint endswith (s suffix : string) : bool :=
  String.eqb s suffix ||
  match s with
  | EmptyString => false
  | String _ r => endswith r suffix
  end.

(** [s.split(sep)[0]] for a one-character separator: the part of [s]
    before the first [sep], all of [s] when there is none. *)
Fixpoint split_first (sep : ascii) (s : string) : string :=
  match s with
  | EmptyString => EmptyString
  | String c r =>
      if Ascii.eqb c sep then EmptyString else String c (split_first sep r)
  end.

(** [l[i]] resolved to a position: negative indices count from the end. *)
Definition index {A : Type} (l : list A) (i : Z) : option nat :=
  let n := Z.of_nat (List.length l) in
  if (0 <=? i) && (i <? n) then Some (Z.to_nat i)
  else if (- n <=? i) && (i <? 0) then Some (Z.to_nat (n + i))
  else None.

End Py.

(** ** Tick arithmetic *)

Definition _TICKS_PERIOD : Z := Z.shiftl 1 29.
Definition _TICKS_MAX : Z := _TICKS_PERIOD - 1.

Definition timestamp_diff (time1 time2 : Z) : Z :=
  Z.land (time1 - time2) _TICKS_MAX.

(** ** ButtonInitConfig *)

Record ButtonInitConfig : Type := mkConfig {
  cfg_enable_multi_press : bool;
  cfg_multi_press_interval : Z;
  cfg_long_press_threshold : Z;
  cfg_max_multi_press : Z
}.

(** The defaults of [ButtonInitConfig.__init__]. *)
Definition default_config : ButtonInitConfig :=
  mkConfig true 175 1000 2.

(** ** Button *)

Record Button : Type := mkButton {
  _button_number : Z;
  enable_multi_press : bool;
  long_press_threshold : Z;
  max_multi_press : Z;
  multi_press_interval : Z;
  _last_press_time : option Z;
  _press_count : Z;
  _press_start_time : Z;
  _is_holding : bool;
  _is_pressed : bool
}.

Definition Button_init (button_number : Z) (config : ButtonInitConfig)
  : result Button :=
  if button_number <? 0 then
    Raise (ValueError "button_number must be non-negative.")
  else
    Ok {| _button_number := button_number;
          enable_multi_press := cfg_enable_multi_press config;
          long_press_threshold := cfg_long_press_threshold config;
          max_multi_press := cfg_max_multi_press config;
          multi_press_interval := cfg_multi_press_interval config;
          _last_press_time := None;
          _press_count := 0;
          _press_start_time := 0;
          _is_holding := false;
          _is_pressed := false |}.

(** Attribute assignments on a [Button]. *)

Definition set_last_press_time (v : option Z) (b : Button) : Button :=
  mkButton (_button_number b) (enable_multi_press b) (long_press_threshold b)
    (max_multi_press b) (multi_press_interval b)
    v (_press_count b) (_press_start_time b) (_is_holding b) (_is_pressed b).

Definition set_press_count (v : Z) (b : Button) : Button :=
  mkButton (_button_number b) (enable_multi_press b) (long_press_threshold b)
    (max_multi_press b) (multi_press_interval b)
    (_last_press_time b) v (_press_start_time b) (_is_holding b) (_is_pressed b).

Definition set_press_start_time (v : Z) (b : Button) : Button :=
  mkButton (_button_number b) (enable_multi_press b) (long_press_threshold b)
    (max_multi_press b) (multi_press_interval b)
    (_last_press_time b) (_press_count b) v (_is_holding b) (_is_pressed b).

Definition set_is_holding (v : bool) (b : Button) : Button :=
  mkButton (_button_number b) (enable_multi_press b) (long_press_threshold b)
    (max_multi_press b) (multi_press_interval b)
    (_last_press_time b) (_press_count b) (_press_start_time b) v (_is_pressed b).

Definition set_is_pressed (v : bool) (b : Button) : Button :=
  mkButton (_button_number b) (enable_multi_press b) (long_press_threshold b)
    (max_multi_press b) (multi_press_interval b)
    (_last_press_time b) (_press_count b) (_press_start_time b) (_is_holding b) v.

(** [Button._check_multi_press_timeout].  [timestamp_diff] subtracts its
    arguments, which raises [TypeError] when [_last_press_time] is [None];
    the two tests before it short-circuit. *)
Definition _check_multi_press_timeout (current_time : Z) (b : Button)
  : Button * result (option Z) :=
  if (0 <? _press_count b) && negb (_is_pressed b) then
    match _last_press_time b with
    | None => (b, Raise TypeError)
    | Some last =>
        if multi_press_interval b <? timestamp_diff current_time last then
          let press_count := _press_count b in
          let b := set_last_press_time None b in
          let b := set_press_count 0 b in
          (b, Ok (Some press_count))
        else (b, Ok None)
    end
  else (b, Ok None).

(** [Button._is_held]. *)
Definition _is_held (current_time : Z) (b : Button) : Button * bool :=
  if negb (_is_holding b) && _is_pressed b
     && (long_press_threshold b <=? timestamp_diff current_time (_press_start_time b))
  then (set_is_holding true b, true)
  else (b, false).

(** ** ButtonInput *)

Record ButtonInput : Type := mkInput {
  _action : string;
  button_number : Z;
  timestamp : Z
}.

Definition MULTI_PRESS_SUFFIX : string := "_MULTI_PRESS".

(** The setter of [ButtonInput.action]: the string stored in [_action], or
    the [ValueError] raised. *)
Definition action_setter (action : string) : result string :=
  if String.eqb action "SHORT_PRESS" || String.eqb action "LONG_PRESS"
     || String.eqb action "HOLD"
  then Ok action
  else
    let action := if String.eqb action "DOUBLE_PRESS" then "2_MULTI_PRESS"%string
                  else action in
    let invalid := Raise (ValueError ("Invalid action: " ++ action ++ ".")) in
    if negb (Py.endswith action MULTI_PRESS_SUFFIX) then invalid
    else
      match Py.int (Py.split_first "_" action) with
      | Raise _ => invalid
      | Ok num =>
          if num <? 1 then invalid
          else Ok (if num =? 1 then "SHORT_PRESS"%string else action)
      end.

Definition ButtonInput_init (action : string) (button_number timestamp : Z)
  : result ButtonInput :=
  match action_setter action with
  | Ok a => Ok (mkInput a button_number timestamp)
  | Raise e => Raise e
  end.

(** [ButtonInput.__eq__] between two [ButtonInput] objects. *)
Definition ButtonInput_eq (x y : ButtonInput) : bool :=
  String.eqb (_action x) (_action y) && (button_number x =? button_number y).

(** [set.add]: an element equal to one already present is not inserted. *)
Fixpoint set_add (x : ButtonInput) (s : list ButtonInput) : list ButtonInput :=
  match s with
  | [] => [x]
  | y :: r => if ButtonInput_eq y x then y :: r else y :: set_add x r
  end.

(** [set.update]. *)
Definition set_update (s other : list ButtonInput) : list ButtonInput :=
  fold_left (fun acc x => set_add x acc) other s.

(** The f-string [f"{num}_MULTI_PRESS"]. *)
Definition multi_press_name (num : Z) : string :=
  (Py.str num ++ MULTI_PRESS_SUFFIX)%string.

(** ** keypad.Event and keypad.EventQueue

    Both are supplied by the firmware.  An event carries a key number, the
    direction of the transition and the tick at which it was scanned; the
    queue is first-in first-out, [len] is the number of queued events and
    [get_into] removes the oldest one. *)

Module Event.
Record t : Type := make {
  key_number : Z;
  pressed : bool;
  timestamp : Z
}.
End Event.

Definition EventQueue : Type := list Event.t.

(** ** ButtonHandler *)

(** [inputs.add(ButtonInput(action, button_number, timestamp))]. *)
Definition add_input (action : string) (number time : Z)
  (inputs : list ButtonInput) : result (list ButtonInput) :=
  match ButtonInput_init action number time with
  | Ok i => Ok (set_add i inputs)
  | Raise e => Raise e
  end.

(** The [else] branch of the loop body of [_handle_buttons]:
    the timeout check and the input it adds when the check returns a
    truthy count. *)
Definition timeout_branch (current_time : Z) (button : Button)
  (inputs : list ButtonInput) : Button * result (list ButtonInput) :=
  let '(button, r) := _check_multi_press_timeout current_time button in
  match r with
  | Raise e => (button, Raise e)
  | Ok None => (button, Ok inputs)
  | Ok (Some num) =>
      if num =? 0 then (button, Ok inputs)
      else (button,
            add_input (multi_press_name num) (_button_number button)
              current_time inputs)
  end.

(** The loop body of [_handle_buttons] for one button. *)
Definition handle_buttons_body (current_time : Z) (button : Button)
  (inputs : list ButtonInput) : Button * result (list ButtonInput) :=
  let '(button, held) := _is_held current_time button in
  if held then
    (button, add_input "HOLD" (_button_number button) current_time inputs)
  else timeout_branch current_time button inputs.

Fixpoint handle_buttons_loop (current_time : Z) (buttons : list Button)
  (inputs : list ButtonInput) : list Button * result (list ButtonInput) :=
  match buttons with
  | [] => ([], Ok inputs)
  | button :: rest =>
      let '(button, r) := handle_buttons_body current_time button inputs in
      match r with
      | Raise e => (button :: rest, Raise e)
      | Ok inputs =>
          let '(rest, r) := handle_buttons_loop current_time rest inputs in
          (button :: rest, r)
      end
  end.

(** [ButtonHandler._handle_buttons]; [current_time] is what [ticks_ms()]
    returned. *)
Definition _handle_buttons (current_time : Z) (buttons : list Button)
  : list Button * result (list ButtonInput) :=
  handle_buttons_loop current_time buttons [].

(** The branch of [_handle_event] for a press. *)
Definition press_transition (event : Event.t) (button : Button) : Button :=
  let button := set_is_pressed true button in
  let button := set_press_start_time (Event.timestamp event) button in
  let button :=
    if _press_count button <? max_multi_press button
    then set_last_press_time (Some (Event.timestamp event)) button
    else button in
  set_press_count (_press_count button + 1) button.

(** The two assignments that end [_handle_event] after a release. *)
Definition clear_run (button : Button) : Button :=
  set_press_count 0 (set_last_press_time None button).

(** The branch of [_handle_event] for a release. *)
Definition release_transition (event : Event.t) (button : Button)
  : Button * result (option ButtonInput) :=
  let button := set_is_pressed false button in
  if timestamp_diff (Event.timestamp event) (_press_start_time button)
     <? long_press_threshold button
  then
    if negb (enable_multi_press button) then
      match ButtonInput_init "SHORT_PRESS" (Event.key_number event)
              (Event.timestamp event) with
      | Raise e => (button, Raise e)
      | Ok input_ => (clear_run button, Ok (Some input_))
      end
    else if _press_count button =? max_multi_press button then
      match ButtonInput_init (multi_press_name (max_multi_press button))
              (Event.key_number event) (Event.timestamp event) with
      | Raise e => (button, Raise e)
      | Ok input_ => (clear_run button, Ok (Some input_))
      end
    else (button, Ok None)
  else
    match ButtonInput_init "LONG_PRESS" (Event.key_number event)
            (Event.timestamp event) with
    | Raise e => (button, Raise e)
    | Ok input_ =>
        let button := set_is_holding false button in
        (clear_run button, Ok (Some input_))
    end.

(** The body of [_handle_event] once [button] has been looked up. *)
Definition handle_event_on (event : Event.t) (button : Button)
  : Button * result (option ButtonInput) :=
  if Event.pressed event then (press_transition event button, Ok None)
  else release_transition event button.

Fixpoint list_set {A : Type} (k : nat) (x : A) (l : list A) : list A :=
  match l, k with
  | [], _ => []
  | _ :: r, O => x :: r
  | y :: r, S k' => y :: list_set k' x r
  end.

(** [ButtonHandler._handle_event]. *)
Definition _handle_event (buttons : list Button) (event : Event.t)
  : list Button * result (option ButtonInput) :=
  match Py.index buttons (Event.key_number event) with
  | None => (buttons, Raise IndexError)
  | Some k =>
      match nth_error buttons k with
      | None => (buttons, Raise IndexError)
      | Some button =>
          let '(button, r) := handle_event_on event button in
          (list_set k button buttons, r)
      end
  end.

(** What one call of [update] leaves behind.  [poll_consumed] counts the
    calls of [get_into]; it is bookkeeping of the model, not a value of the
    program. *)
Record Poll : Type := mkPoll {
  poll_buttons : list Button;
  poll_queue : EventQueue;
  poll_result : result (list ButtonInput);
  poll_consumed : nat
}.

(** The [while] loop of [update].  The scanner fills the queue while the
    loop runs: [arrivals k] are the events it appends during iteration [k].
    The loop has no bound of its own, so the model takes [fuel] and returns
    [None] when the loop is still running after [fuel] tests of its
    condition. *)
Fixpoint drain (fuel : nat) (arrivals : nat -> list Event.t) (iteration : nat)
  (buttons : list Button) (event_queue : EventQueue)
  (inputs : list ButtonInput) (consumed : nat) : option Poll :=
  match fuel with
  | O => None
  | S fuel =>
      let i := 0 in
      if i <? Z.of_nat (List.length event_queue) then
        match event_queue with
        | [] => Some (mkPoll buttons event_queue (Ok inputs) consumed)
        | event :: event_queue =>
            let '(buttons, r) := _handle_event buttons event in
            let event_queue := (event_queue ++ arrivals iteration)%list in
            match r with
            | Raise e =>
                Some (mkPoll buttons event_queue (Raise e) (S consumed))
            | Ok None =>
                drain fuel arrivals (S iteration) buttons event_queue
                  inputs (S consumed)
            | Ok (Some input_) =>
                drain fuel arrivals (S iteration) buttons event_queue
                  (set_add input_ inputs) (S consumed)
            end
        end
      else Some (mkPoll buttons event_queue (Ok inputs) consumed)
  end.

(** [ButtonHandler.update]; [current_time] is what [ticks_ms()] returns
    inside [_handle_buttons]. *)
Definition update (fuel : nat) (arrivals : nat -> list Event.t)
  (current_time : Z) (buttons : list Button) (event_queue : EventQueue)
  : option Poll :=
  let inputs := [] in
  let '(buttons, r) := _handle_buttons current_time buttons in
  match r with
  | Raise e => Some (mkPoll buttons event_queue (Raise e) 0)
  | Ok found =>
      let inputs := set_update inputs found in
      drain fuel arrivals 0 buttons event_queue inputs 0
  end.

(** A scanner that is silent while the queue is drained. *)
Definition no_arrivals : nat -> list Event.t := fun _ => [].

(** [ButtonHandler.__init__]: one [Button] per index below [button_amount],
    configured from [config] where it has the index and with the defaults
    elsewhere.  [remaining] is the number of loop iterations left. *)
Fixpoint make_buttons (remaining : nat) (i : Z)
  (config : Z -> option ButtonInitConfig) : result (list Button) :=
  match remaining with
  | O => Ok []
  | S remaining =>
      let conf := match config i with Some c => c | None => default_config end in
      match Button_init i conf with
      | Raise e => Raise e
      | Ok button =>
          match make_buttons remaining (i + 1) config with
          | Raise e => Raise e
          | Ok rest => Ok (button :: rest)
          end
      end
  end.

Definition ButtonHandler_init (button_amount : Z)
  (config : Z -> option ButtonInitConfig) : result (list Button) :=
  if button_amount <? 1 then
    Raise (ValueError "button_amount must be bigger than 1.")
  else make_buttons (Z.to_nat button_amount) 0 config.

(** [ButtonInput.__hash__]: the hash of the pair of action and button
    number, for whatever [hash] the interpreter uses on such pairs. *)
Definition ButtonInput_hash (hash : string * Z -> Z) (x : ButtonInput) : Z :=
  hash (_action x, button_number x).

(** ** Notions of the specification *)

(** The action that stands for [count] presses in a row: a count of one is
    a short press. *)
Definition multi_press_action (count : Z) : string :=
  if count =? 1 then "SHORT_PRESS"%string else multi_press_name count.

(** The canonical action strings: the three plain ones and
    ["<N>_MULTI_PRESS"] for [N >= 2] written in decimal. *)
Definition canonical_action (a : string) : Prop :=
  a = "SHORT_PRESS"%string \/ a = "LONG_PRESS"%string \/ a = "HOLD"%string \/
  exists n, 2 <= n /\ a = multi_press_name n.

(** The time-triggered phase as the specification words it: the hold check,
    then the timeout check whether or not the hold check fired. *)
Definition handle_buttons_body_unconditional (current_time : Z)
  (button : Button) (inputs : list ButtonInput)
  : Button * result (list ButtonInput) :=
  let '(button, held) := _is_held current_time button in
  let r := if held
           then add_input "HOLD" (_button_number button) current_time inputs
           else Ok inputs in
  match r with
  | Raise e => (button, Raise e)
  | Ok inputs => timeout_branch current_time button inputs
  end.

(** What can happen to one button: the two kinds of event and the two
    checks of a poll. *)
Inductive op : Type :=
| PressEvent (key time : Z)
| ReleaseEvent (key time : Z)
| HoldCheck (now : Z)
| TimeoutCheck (now : Z).

(** The button after one operation; an exception leaves the assignments
    made before it. *)
Definition apply_op (o : op) (b : Button) : Button :=
  match o with
  | PressEvent k t => fst (handle_event_on (Event.make k true t) b)
  | ReleaseEvent k t => fst (handle_event_on (Event.make k false t) b)
  | HoldCheck now => fst (_is_held now b)
  | TimeoutCheck now => fst (_check_multi_press_timeout now b)
  end.

Definition run (ops : list op) (b : Button) : Button :=
  fold_left (fun b o => apply_op o b) ops b.

(** The states a button goes through from its construction. *)
Inductive reachable (init : Button) : Button -> Prop :=
| reachable_init : reachable init init
| reachable_step b o : reachable init b -> reachable init (apply_op o b).

(** What every operation on a button keeps when [max_multi_press >= 1]:
    the count is not negative, and a positive count comes with a
    [last_press_time]. *)
Definition run_pending_ok (b : Button) : Prop :=
  1 <= max_multi_press b /\ 0 <= _press_count b /\
  (0 < _press_count b -> _last_press_time b <> None).

(** Whether polling [button] at [now] reports ["HOLD"]. *)
Definition reports_hold (now : Z) (button : Button) : bool :=
  match snd (handle_buttons_body now button []) with
  | Ok [i] => String.eqb (_action i) "HOLD"
  | _ => false
  end.

(** The number of ["HOLD"] reports over the polls at [times], and the
    button after them. *)
Fixpoint hold_reports (times : list Z) (button : Button) : nat * Button :=
  match times with
  | [] => (O, button)
  | now :: times =>
      let '(n, button') :=
        hold_reports times (fst (handle_buttons_body now button [])) in
      ((if reports_hold now button then S n else n), button')
  end.

(** The button of a handler made for one button with the defaults. *)
Definition fresh_button : Button :=
  mkButton 0 true 1000 2 175 None 0 0 false false.

(** A button with the configuration of the specification's scenario
    (multi-press enabled, at most 2 presses, interval 200, threshold 1000)
    after one short press: pressed at tick 0 and released at tick 150. *)
Definition after_short_press : Button :=
  run [PressEvent 0 0; ReleaseEvent 0 150]
    (mkButton 0 true 1000 2 200 None 0 0 false false).

(** The inputs the specification lists as the ones an action can be
    constructed from: the four names, and a positive integer followed by
    the suffix, the integer written the way [int] reads it. *)
Definition listed_action_input (a : string) : Prop :=
  a = "SHORT_PRESS"%string \/ a = "LONG_PRESS"%string \/ a = "HOLD"%string \/
  a = "DOUBLE_PRESS"%string \/
  exists s n, a = (s ++ MULTI_PRESS_SUFFIX)%string /\ Py.int s = Ok n /\ 1 <= n.

(** The inputs [action_setter] accepts, with what it stores for each. *)
Definition accepted_action_input (a stored : string) : Prop :=
  ((a = "SHORT_PRESS"%string \/ a = "LONG_PRESS"%string \/ a = "HOLD"%string)
   /\ stored = a) \/
  (a = "DOUBLE_PRESS"%string /\ stored = "2_MULTI_PRESS"%string) \/
  (Py.endswith a MULTI_PRESS_SUFFIX = true /\
   exists n, Py.int (Py.split_first "_" a) = Ok n /\ 1 <= n /\
             stored = if n =? 1 then "SHORT_PRESS"%string else a).

(** The number of events the scanner appends during the [n] iterations
    that start with iteration [k]. *)
Fixpoint arrived (arrivals : nat -> list Event.t) (k n : nat) : nat :=
  match n with
  | O => O
  | S n => (List.length (arrivals k) + arrived arrivals (S k) n)%nat
  end.

(** A scanner that reports one more press of key 0 during every iteration. *)
Definition busy_scanner : nat -> list Event.t :=
  fun k => [Event.make 0 true (Z.of_nat k)].

(** ** Further notions used by the properties of the whole handler *)

(** [ButtonInput.__str__]. *)
Definition ButtonInput_str (x : ButtonInput) : string :=
  (_action x ++ " on button " ++ Py.str (button_number x))%string.

(** No input of the set equals, under [__eq__], one that comes after it. *)
Fixpoint distinct_inputs (s : list ButtonInput) : bool :=
  match s with
  | [] => true
  | x :: r => negb (existsb (fun y => ButtonInput_eq y x) r) && distinct_inputs r
  end.

(** The event names one of the buttons of the handler, counted from 0. *)
Definition key_in_range (buttons : list Button) (event : Event.t) : Prop :=
  0 <= Event.key_number event < Z.of_nat (List.length buttons).

(** One button polled on its own, from an empty set of inputs. *)
Definition poll_one (now : Z) (button : Button) : Button :=
  fst (handle_buttons_body now button []).

(** The states a button goes through when its events alternate, as a
    scanner reports them: a press only on a released button, a release only
    on a pressed one, and the two checks at any time. *)
Inductive alternating (init : Button) : Button -> Prop :=
| alternating_init : alternating init init
| alternating_press b key time :
    alternating init b -> _is_pressed b = false ->
    alternating init (apply_op (PressEvent key time) b)
| alternating_release b key time :
    alternating init b -> _is_pressed b = true ->
    alternating init (apply_op (ReleaseEvent key time) b)
| alternating_hold b now :
    alternating init b -> alternating init (apply_op (HoldCheck now) b)
| alternating_timeout b now :
    alternating init b -> alternating init (apply_op (TimeoutCheck now) b).

(** The events of a series of presses of one key, each given by the tick of
    its press and the tick of its release. *)
Fixpoint press_series (key : Z) (presses : list (Z * Z)) : list op :=
  match presses with
  | [] => []
  | (pressed_at, released_at) :: rest =>
      PressEvent key pressed_at :: ReleaseEvent key released_at
      :: press_series key rest
  end.

(** A press is short for [button] when it is released before the
    threshold. *)
Definition short_press (button : Button) (press : Z * Z) : Prop :=
  timestamp_diff (snd press) (fst press) < long_press_threshold button.

(** Two states of one button: the number and the configuration agree. *)
Definition same_setup (b b' : Button) : Prop :=
  _button_number b' = _button_number b /\
  enable_multi_press b' = enable_multi_press b /\
  long_press_threshold b' = long_press_threshold b /\
  max_multi_press b' = max_multi_press b /\
  multi_press_interval b' = multi_press_interval b.

(** A button on which the timeout check cannot take its difference: a
    positive count on a released button with no [last_press_time]. *)
Definition missing_last_press_time (b : Button) : Prop :=
  0 < _press_count b /\ _is_pressed b = false /\ _last_press_time b = None.

(** An input reported by a poll at [now] for one of [buttons]. *)
Definition reported_at (now : Z) (buttons : list Button) (i : ButtonInput)
  : Prop :=
  timestamp i = now /\
  exists b, In b buttons /\ button_number i = _button_number b.

(** What alternating events keep on a button whose [max_multi_press] is at
    least 1: a pressed button has counted between 1 and [max_multi_press]
    presses, a released one fewer than [max_multi_press]. *)
Definition count_in_bounds (b : Button) : Prop :=
  1 <= max_multi_press b /\
  (_is_pressed b = true -> 1 <= _press_count b <= max_multi_press b) /\
  (_is_pressed b = false -> 0 <= _press_count b < max_multi_press b).

(** * Properties *)

(** ** Tick arithmetic *)

Lemma ticks_max_ones : _TICKS_MAX = Z.ones 29.
Proof. reflexivity. Qed.

Lemma timestamp_diff_spec (a b : Z) :
  timestamp_diff a b = (a - b) mod 2 ^ 29.
Proof.
  unfold timestamp_diff. rewrite ticks_max_ones.
  apply Z.land_ones. lia.
Qed.

Lemma timestamp_diff_range (a b : Z) :
  0 <= timestamp_diff a b < _TICKS_PERIOD.
Proof.
  rewrite timestamp_diff_spec.
  change _TICKS_PERIOD with (2 ^ 29).
  apply Z.mod_pos_bound. lia.
Qed.

(** C6: [timestamp_diff a b] is [(a - b) mod 2^29], it is never negative,
    [diff(t, t)] is 0 for every [t], and [diff(5, P - 5)] is 10 for
    [P = 2^29]. *)
Theorem timestamp_diff_is_modular_difference :
  (forall a b : Z,
      timestamp_diff a b = (a - b) mod 2 ^ 29 /\ 0 <= timestamp_diff a b) /\
  (forall t : Z, timestamp_diff t t = 0) /\
  _TICKS_PERIOD = 2 ^ 29 /\
  timestamp_diff 5 (_TICKS_PERIOD - 5) = 10.
Proof.
  split; [| split; [| split]].
  - intros a b. split.
    + apply timestamp_diff_spec.
    + apply timestamp_diff_range.
  - intros t. rewrite timestamp_diff_spec, Z.sub_diag. reflexivity.
  - reflexivity.
  - reflexivity.
Qed.

(** ** Strings of digits *)

Section DigitStrings.

Local Open Scope string_scope.

Lemma endswith_app (p s : string) : Py.endswith (p ++ s) s = true.
Proof.
  induction p as [| c p IH]; simpl.
  - destruct s; cbn [Py.endswith append]; rewrite String.eqb_refl; reflexivity.
  - rewrite IH. apply orb_true_r.
Qed.

Lemma split_first_uint (d : uint) (r : string) :
  Py.split_first "_" (NilEmpty.string_of_uint d ++ String "_" r)
  = NilEmpty.string_of_uint d.
Proof.
  induction d; simpl; try rewrite IHd; reflexivity.
Qed.

Lemma lstrip_uint (d : uint) :
  Py.lstrip (NilEmpty.string_of_uint d) = NilEmpty.string_of_uint d.
Proof. destruct d; reflexivity. Qed.

Lemma rstrip_uint (d : uint) :
  Py.rstrip (NilEmpty.string_of_uint d) = NilEmpty.string_of_uint d.
Proof.
  induction d; simpl; try reflexivity;
    rewrite IHd; destruct (NilEmpty.string_of_uint d); reflexivity.
Qed.

Lemma strip_uint (d : uint) :
  Py.strip (NilEmpty.string_of_uint d) = NilEmpty.string_of_uint d.
Proof. unfold Py.strip. rewrite lstrip_uint. apply rstrip_uint. Qed.

Lemma digits_uint (d : uint) :
  d <> Nil -> Py.digits (NilEmpty.string_of_uint d) = Ok (Z.of_uint d).
Proof.
  intros Hd. unfold Py.digits, NilZero.uint_of_string.
  pose proof (NilEmpty.usu d) as Hu.
  destruct (NilEmpty.string_of_uint d) eqn:E.
  - destruct d; try discriminate. contradiction.
  - rewrite Hu. reflexivity.
Qed.

(** [int] reads back what the digits of a number say. *)
Lemma int_uint (d : uint) :
  d <> Nil -> Py.int (NilEmpty.string_of_uint d) = Ok (Z.of_uint d).
Proof.
  intros Hd. unfold Py.int. rewrite strip_uint.
  rewrite <- (digits_uint d Hd).
  destruct d; try contradiction; reflexivity.
Qed.

Lemma str_pos (p : positive) :
  Py.str (Z.pos p) = NilEmpty.string_of_uint (Pos.to_uint p).
Proof.
  unfold Py.str. simpl.
  pose proof (Unsigned.to_uint_nonnil p) as Hn.
  destruct (Pos.to_uint p); try reflexivity. contradiction.
Qed.

Lemma of_uint_to_uint (p : positive) : Z.of_uint (Pos.to_uint p) = Z.pos p.
Proof. unfold Z.of_uint. rewrite Unsigned.of_to. reflexivity. Qed.

(** [int(str(n))] is [n] for a positive [n]. *)
Lemma int_str (n : Z) : 1 <= n -> Py.int (Py.str n) = Ok n.
Proof.
  intros Hn. destruct n as [| p | p]; try lia.
  rewrite str_pos, int_uint by apply Unsigned.to_uint_nonnil.
  rewrite of_uint_to_uint. reflexivity.
Qed.

Lemma split_first_multi_press_name (n : Z) :
  1 <= n -> Py.split_first "_" (multi_press_name n) = Py.str n.
Proof.
  intros Hn. destruct n as [| p | p]; try lia.
  unfold multi_press_name. rewrite str_pos.
  apply (split_first_uint _ "MULTI_PRESS").
Qed.

(** The name of a count starts with a digit, so it is none of the four
    literal action names. *)
Lemma multi_press_name_not_literal (n : Z) (lit : string) :
  1 <= n ->
  lit = "SHORT_PRESS" \/ lit = "LONG_PRESS" \/ lit = "HOLD"
  \/ lit = "DOUBLE_PRESS" ->
  String.eqb (multi_press_name n) lit = false.
Proof.
  intros Hn Hlit. destruct n as [| p | p]; try lia.
  unfold multi_press_name. rewrite str_pos.
  pose proof (Unsigned.to_uint_nonnil p) as Hnil.
  destruct (Pos.to_uint p); try contradiction;
    destruct Hlit as [-> | [-> | [-> | ->]]]; reflexivity.
Qed.

(** Constructing the action named after a positive count succeeds and
    yields the action of that count. *)
Lemma action_setter_multi_press_name (n : Z) :
  1 <= n -> action_setter (multi_press_name n) = Ok (multi_press_action n).
Proof.
  intros Hn. unfold action_setter.
  rewrite !multi_press_name_not_literal by auto.
  cbn [orb negb].
  assert (He : Py.endswith (multi_press_name n) MULTI_PRESS_SUFFIX = true)
    by apply endswith_app.
  rewrite He. cbn [negb].
  rewrite split_first_multi_press_name, int_str by assumption.
  destruct (n <? 1)%Z eqn:E; [apply Z.ltb_lt in E; lia |].
  reflexivity.
Qed.

End DigitStrings.

(** ** Event-triggered transitions *)

Lemma ButtonInput_init_multi_press_name (n key time : Z) :
  1 <= n ->
  ButtonInput_init (multi_press_name n) key time
  = Ok (mkInput (multi_press_action n) key time).
Proof.
  intros Hn. unfold ButtonInput_init.
  rewrite action_setter_multi_press_name by assumption. reflexivity.
Qed.

(** [_handle_event] runs the transition on the button the event names and
    stores it back in its place. *)
Lemma handle_event_at (buttons : list Button) (event : Event.t)
  (button : Button) :
  0 <= Event.key_number event < Z.of_nat (List.length buttons) ->
  nth_error buttons (Z.to_nat (Event.key_number event)) = Some button ->
  _handle_event buttons event
  = (list_set (Z.to_nat (Event.key_number event))
       (fst (handle_event_on event button)) buttons,
     snd (handle_event_on event button)).
Proof.
  intros [Hlo Hhi] Hnth. unfold _handle_event, Py.index.
  apply Z.leb_le in Hlo. apply Z.ltb_lt in Hhi. rewrite Hlo, Hhi.
  cbn [andb]. rewrite Hnth.
  destruct (handle_event_on event button). reflexivity.
Qed.

(** An event for a key the handler has no button for raises [IndexError]
    and changes nothing. *)
Lemma handle_event_out_of_range (buttons : list Button) (event : Event.t) :
  Z.of_nat (List.length buttons) <= Event.key_number event ->
  _handle_event buttons event = (buttons, Raise IndexError).
Proof.
  intros H. unfold _handle_event, Py.index.
  destruct (Event.key_number event <? Z.of_nat (List.length buttons)) eqn:E;
    [apply Z.ltb_lt in E; lia |].
  rewrite andb_false_r.
  destruct (Event.key_number event <? 0) eqn:E0;
    [apply Z.ltb_lt in E0; lia |].
  rewrite andb_false_r. reflexivity.
Qed.

(** C5: a press event sets [is_pressed] and [press_start_time], moves
    [last_press_time] to the event's timestamp exactly when the count was
    below [max_multi_press] (and leaves it alone otherwise), adds one to
    [press_count] and emits nothing. *)
Theorem press_event_effect (button : Button) (event : Event.t)
  (Hpressed : Event.pressed event = true) :
  let after := fst (handle_event_on event button) in
  _is_pressed after = true /\
  _press_start_time after = Event.timestamp event /\
  (_press_count button < max_multi_press button ->
   _last_press_time after = Some (Event.timestamp event)) /\
  (max_multi_press button <= _press_count button ->
   _last_press_time after = _last_press_time button) /\
  _press_count after = _press_count button + 1 /\
  _is_holding after = _is_holding button /\
  snd (handle_event_on event button) = Ok None.
Proof.
  unfold handle_event_on. rewrite Hpressed. cbn [fst snd].
  unfold press_transition. cbn.
  destruct (_press_count button <? max_multi_press button) eqn:E; cbn;
    [apply Z.ltb_lt in E | apply Z.ltb_ge in E];
    repeat split; try reflexivity; intros; lia.
Qed.

Lemma press_event_effect_witness :
  Event.pressed (Event.make 0 true 300) = true /\
  _last_press_time
    (fst (handle_event_on (Event.make 0 true 300)
            (mkButton 0 true 1000 2 200 (Some 0) 1 0 false false)))
  = Some 300.
Proof.
  split; [reflexivity |].
  apply (press_event_effect
           (mkButton 0 true 1000 2 200 (Some 0) 1 0 false false)
           (Event.make 0 true 300) eq_refl).
  cbn. lia.
Defined.

(** C1: a release event clears [is_pressed]; with [held] the ticks since
    [press_start_time], and the cases read in order: a short release with
    multi-press disabled emits SHORT_PRESS and clears the run; a short
    release that finds [press_count] at [max_multi_press] emits the action
    of that count and clears the run; any other short release emits nothing
    and keeps the run; a long release emits LONG_PRESS, clears [is_holding]
    and clears the run.  Every emission carries the event's timestamp.
    [max_multi_press] is at least 1, as the configuration requires. *)
Theorem release_event_effect (button : Button) (event : Event.t)
  (Hreleased : Event.pressed event = false)
  (Hmax : 1 <= max_multi_press button) :
  let held :=
    timestamp_diff (Event.timestamp event) (_press_start_time button) in
  let key := Event.key_number event in
  let time := Event.timestamp event in
  let after := fst (handle_event_on event button) in
  let emitted := snd (handle_event_on event button) in
  _is_pressed after = false /\
  (held < long_press_threshold button ->
   enable_multi_press button = false ->
   emitted = Ok (Some (mkInput "SHORT_PRESS" key time)) /\
   _press_count after = 0 /\ _last_press_time after = None) /\
  (held < long_press_threshold button ->
   enable_multi_press button = true ->
   _press_count button = max_multi_press button ->
   emitted
   = Ok (Some (mkInput (multi_press_action (_press_count button)) key time)) /\
   _press_count after = 0 /\ _last_press_time after = None) /\
  (held < long_press_threshold button ->
   enable_multi_press button = true ->
   _press_count button <> max_multi_press button ->
   emitted = Ok None /\
   _press_count after = _press_count button /\
   _last_press_time after = _last_press_time button) /\
  (long_press_threshold button <= held ->
   emitted = Ok (Some (mkInput "LONG_PRESS" key time)) /\
   _is_holding after = false /\
   _press_count after = 0 /\ _last_press_time after = None).
Proof.
  unfold handle_event_on. rewrite Hreleased.
  unfold release_transition. cbn [_press_start_time set_is_pressed
    long_press_threshold enable_multi_press _press_count max_multi_press].
  rewrite ButtonInput_init_multi_press_name by assumption.
  destruct (timestamp_diff (Event.timestamp event) (_press_start_time button)
            <? long_press_threshold button) eqn:Eheld;
    [apply Z.ltb_lt in Eheld | apply Z.ltb_ge in Eheld];
    destruct (enable_multi_press button) eqn:Emulti;
    destruct (_press_count button =? max_multi_press button) eqn:Ecount;
    [apply Z.eqb_eq in Ecount | apply Z.eqb_neq in Ecount
    |apply Z.eqb_eq in Ecount | apply Z.eqb_neq in Ecount
    |apply Z.eqb_eq in Ecount | apply Z.eqb_neq in Ecount
    |apply Z.eqb_eq in Ecount | apply Z.eqb_neq in Ecount];
    cbn; repeat split; intros;
    try reflexivity; try discriminate; try lia; try congruence.
Qed.

Lemma release_event_effect_witness :
  Event.pressed (Event.make 0 false 400) = false /\
  1 <= max_multi_press (mkButton 0 true 1000 2 200 (Some 300) 2 300 false true) /\
  snd (handle_event_on (Event.make 0 false 400)
         (mkButton 0 true 1000 2 200 (Some 300) 2 300 false true))
  = Ok (Some (mkInput "2_MULTI_PRESS" 0 400)).
Proof.
  split; [reflexivity |]. split; [cbn; lia |].
  apply (release_event_effect
           (mkButton 0 true 1000 2 200 (Some 300) 2 300 false true)
           (Event.make 0 false 400) eq_refl);
    [cbn; lia | vm_compute; reflexivity | reflexivity | reflexivity].
Defined.

(** ** Time-triggered checks *)

Lemma add_input_hold (number time : Z) (inputs : list ButtonInput) :
  add_input "HOLD" number time inputs
  = Ok (set_add (mkInput "HOLD" number time) inputs).
Proof. reflexivity. Qed.

Lemma add_input_multi_press_name (n number time : Z)
  (inputs : list ButtonInput) :
  1 <= n ->
  add_input (multi_press_name n) number time inputs
  = Ok (set_add (mkInput (multi_press_action n) number time) inputs).
Proof.
  intros Hn. unfold add_input.
  rewrite ButtonInput_init_multi_press_name by assumption. reflexivity.
Qed.

(** The timeout check fires: the count is emitted as its action and the run
    is cleared. *)
Lemma timeout_branch_fires (now : Z) (button : Button)
  (inputs : list ButtonInput) (last : Z) :
  0 < _press_count button ->
  _is_pressed button = false ->
  _last_press_time button = Some last ->
  multi_press_interval button < timestamp_diff now last ->
  timeout_branch now button inputs
  = (clear_run button,
     Ok (set_add (mkInput (multi_press_action (_press_count button))
                    (_button_number button) now) inputs)).
Proof.
  intros Hcount Hpressed Hlast Hdiff.
  unfold timeout_branch, _check_multi_press_timeout.
  rewrite Hpressed, Hlast.
  apply Z.ltb_lt in Hcount, Hdiff as Hd. rewrite Hcount, Hd. cbn [andb negb].
  destruct (_press_count button =? 0) eqn:E.
  - apply Z.eqb_eq in E. apply Z.ltb_lt in Hcount. lia.
  - cbn [_button_number set_press_count set_last_press_time].
    apply Z.ltb_lt in Hcount.
    rewrite add_input_multi_press_name by lia. reflexivity.
Qed.

(** The timeout check does not fire: nothing changes. *)
Lemma timeout_branch_idle (now : Z) (button : Button)
  (inputs : list ButtonInput) :
  _press_count button <= 0 \/ _is_pressed button = true \/
  (exists last, _last_press_time button = Some last /\
                timestamp_diff now last <= multi_press_interval button) ->
  timeout_branch now button inputs = (button, Ok inputs).
Proof.
  intros H. unfold timeout_branch, _check_multi_press_timeout.
  destruct (0 <? _press_count button) eqn:Ecount; cbn [andb];
    [| reflexivity].
  destruct (_is_pressed button) eqn:Epressed; cbn [andb negb];
    [reflexivity |].
  apply Z.ltb_lt in Ecount.
  destruct H as [H | [H | (last & Hlast & Hdiff)]];
    [lia | discriminate |].
  rewrite Hlast. apply Z.ltb_ge in Hdiff. rewrite Hdiff. reflexivity.
Qed.

(** C2, as stated, fails on the scenario the specification gives for it:
    after the press at tick 0 released at tick 150, with interval 200,
    the poll at tick 349 does not stay silent, it emits SHORT_PRESS. *)
Lemma timeout_fires_before_release_window :
  _press_count after_short_press = 1 /\
  _is_pressed after_short_press = false /\
  ~ (snd (timeout_branch 349 after_short_press []) = Ok []) /\
  snd (handle_buttons_body 349 after_short_press [])
  = Ok [mkInput "SHORT_PRESS" 0 349].
Proof.
  repeat split; try reflexivity.
  vm_compute. discriminate.
Qed.

(** C2, amended: the timeout check emits the action of [press_count] (a
    count of 1 as SHORT_PRESS) at [now] and clears the run when
    [press_count > 0], the button is not pressed and more than
    [multi_press_interval] ticks separate [now] from [last_press_time]; it
    changes nothing and emits nothing when [press_count <= 0], or the button
    is pressed, or at most [multi_press_interval] ticks separate them.
    [last_press_time] is the tick of the last counted press, not of the
    release: after the press at tick 0 released at tick 150, with interval
    200, the poll at tick 200 emits nothing and the polls at ticks 201 and
    351 emit SHORT_PRESS. *)
Theorem multi_press_timeout_effect :
  (forall (now : Z) (button : Button) (inputs : list ButtonInput),
      (forall last,
          0 < _press_count button ->
          _is_pressed button = false ->
          _last_press_time button = Some last ->
          multi_press_interval button < timestamp_diff now last ->
          let after := fst (timeout_branch now button inputs) in
          snd (timeout_branch now button inputs)
          = Ok (set_add (mkInput (multi_press_action (_press_count button))
                           (_button_number button) now) inputs) /\
          multi_press_action 1 = "SHORT_PRESS"%string /\
          _press_count after = 0 /\ _last_press_time after = None) /\
      (_press_count button <= 0 \/ _is_pressed button = true \/
       (exists last, _last_press_time button = Some last /\
                     timestamp_diff now last <= multi_press_interval button) ->
       timeout_branch now button inputs = (button, Ok inputs))) /\
  _last_press_time after_short_press = Some 0 /\
  timeout_branch 200 after_short_press [] = (after_short_press, Ok []) /\
  snd (timeout_branch 201 after_short_press [])
  = Ok [mkInput "SHORT_PRESS" 0 201] /\
  snd (timeout_branch 351 after_short_press [])
  = Ok [mkInput "SHORT_PRESS" 0 351].
Proof.
  split; [| repeat split; reflexivity].
  intros now button inputs. split.
  - intros last Hcount Hpressed Hlast Hdiff.
    rewrite (timeout_branch_fires now button inputs last) by assumption.
    repeat split; reflexivity.
  - apply timeout_branch_idle.
Qed.

(** The hold check fires only on a pressed button, the timeout check only
    on a released one. *)
Lemma is_held_pressed (now : Z) (button : Button) :
  snd (_is_held now button) = true ->
  _is_pressed button = true /\ _is_holding button = false.
Proof.
  unfold _is_held.
  destruct (_is_holding button), (_is_pressed button); cbn;
    try discriminate.
  destruct (_ <=? _); cbn; intros; try discriminate. split; reflexivity.
Qed.

Lemma timeout_released (now : Z) (button : Button) (count : Z) :
  snd (_check_multi_press_timeout now button) = Ok (Some count) ->
  _is_pressed button = false.
Proof.
  unfold _check_multi_press_timeout.
  destruct (0 <? _press_count button), (_is_pressed button); cbn;
    try discriminate.
  reflexivity.
Qed.

(** C10: the loop body of the time-triggered phase, which runs the timeout
    check only when the hold check did not fire, leaves the same button and
    the same inputs as running the hold check and then the timeout check in
    every case; the hold check fires only on a pressed button and the
    timeout check only on a released one, so both never fire in one poll. *)
Theorem hold_else_timeout_is_hold_then_timeout :
  forall (now : Z) (button : Button) (inputs : list ButtonInput),
    handle_buttons_body now button inputs
    = handle_buttons_body_unconditional now button inputs /\
    (snd (_is_held now button) = true -> _is_pressed button = true) /\
    (forall count,
        snd (_check_multi_press_timeout now button) = Ok (Some count) ->
        _is_pressed button = false) /\
    ~ (snd (_is_held now button) = true /\
       exists count,
         snd (_check_multi_press_timeout now button) = Ok (Some count)).
Proof.
  intros now button inputs. repeat split.
  - unfold handle_buttons_body, handle_buttons_body_unconditional.
    destruct (_is_held now button) as [button' held] eqn:Eheld.
    destruct held; [| reflexivity].
    rewrite add_input_hold.
    pose proof (is_held_pressed now button) as Hp.
    rewrite Eheld in Hp. destruct (Hp eq_refl) as [Hpressed _].
    unfold _is_held in Eheld. rewrite Hpressed in Eheld.
    destruct (negb (_is_holding button) && true
              && (long_press_threshold button
                  <=? timestamp_diff now (_press_start_time button)));
      inversion Eheld; subst.
    rewrite timeout_branch_idle; [reflexivity |].
    right; left. exact Hpressed.
  - intros H. apply (is_held_pressed now button H).
  - intros count. apply timeout_released.
  - intros [Hheld [count Hcount]].
    apply is_held_pressed in Hheld. apply timeout_released in Hcount.
    destruct Hheld as [Hp _]. congruence.
Qed.

(** ** Equality and hashing of inputs *)

(** C9: two inputs are equal exactly when their actions and their button
    numbers are, whatever their timestamps; equal inputs have equal hashes;
    the double press on button 3 at tick 10 equals the one at tick 9999. *)
Theorem ButtonInput_eq_ignores_timestamp :
  (forall x y : ButtonInput,
      ButtonInput_eq x y = true
      <-> _action x = _action y /\ button_number x = button_number y) /\
  (forall (a : string) (n t t' : Z),
      ButtonInput_eq (mkInput a n t) (mkInput a n t') = true) /\
  (forall (hash : string * Z -> Z) (x y : ButtonInput),
      ButtonInput_eq x y = true ->
      ButtonInput_hash hash x = ButtonInput_hash hash y) /\
  (exists x y,
      ButtonInput_init (multi_press_name 2) 3 10 = Ok x /\
      ButtonInput_init "DOUBLE_PRESS" 3 9999 = Ok y /\
      _action x = multi_press_action 2 /\
      timestamp x <> timestamp y /\
      ButtonInput_eq x y = true).
Proof.
  assert (Heq : forall x y : ButtonInput,
             ButtonInput_eq x y = true
             <-> _action x = _action y /\ button_number x = button_number y).
  { intros x y. unfold ButtonInput_eq.
    rewrite andb_true_iff, String.eqb_eq, Z.eqb_eq. reflexivity. }
  split; [exact Heq |]. split; [| split].
  - intros a n t t'. apply Heq. split; reflexivity.
  - intros hash x y H. apply Heq in H. destruct H as [Ha Hn].
    unfold ButtonInput_hash. rewrite Ha, Hn. reflexivity.
  - exists (mkInput "2_MULTI_PRESS" 3 10), (mkInput "2_MULTI_PRESS" 3 9999).
    repeat split; try reflexivity. cbn. discriminate.
Qed.

(** ** Constructing actions *)

Section Actions.

Local Open Scope string_scope.

Lemma length_append (s t : string) :
  String.length (s ++ t) = (String.length s + String.length t)%nat.
Proof. induction s as [| c s IH]; simpl; [| rewrite IH]; reflexivity. Qed.

(** Nothing but ["2_X"] can stand before the suffix in
    ["2_X_MULTI_PRESS"]. *)
Lemma prefix_of_2_X (s : string) :
  s ++ MULTI_PRESS_SUFFIX = "2_X_MULTI_PRESS" -> s = "2_X".
Proof.
  intros H.
  assert (Hlen : String.length s = 3%nat).
  { apply (f_equal String.length) in H. rewrite length_append in H.
    cbn in H. lia. }
  destruct s as [| c1 [| c2 [| c3 [| c4 s]]]]; try discriminate.
  cbn in H. congruence.
Qed.

Lemma action_2_X_not_listed : ~ listed_action_input "2_X_MULTI_PRESS".
Proof.
  intros [H | [H | [H | [H | (s & n & Hs & Hint & _)]]]];
    try discriminate.
  symmetry in Hs. apply prefix_of_2_X in Hs. subst s.
  vm_compute in Hint. discriminate.
Qed.

Lemma action_2_X_not_canonical : ~ canonical_action "2_X_MULTI_PRESS".
Proof.
  intros [H | [H | [H | (n & Hn & H)]]]; try discriminate.
  unfold multi_press_name in H. symmetry in H.
  apply prefix_of_2_X in H.
  assert (Hs : Py.split_first "_" (multi_press_name n) = Py.str n)
    by (apply split_first_multi_press_name; lia).
  unfold multi_press_name in Hs. rewrite H in Hs.
  cbn in Hs. discriminate.
Qed.

(** C7: the setter misses a case of the validation it performs.
    ["2_X_MULTI_PRESS"] is none of the inputs an action can be constructed
    from, neither one of the four names nor a positive integer followed by
    the suffix; yet constructing an action from it succeeds instead of
    failing with the invalid-action error, and what is stored is not a
    canonical action. *)
Lemma action_setter_accepts_unlisted_input :
  ~ listed_action_input "2_X_MULTI_PRESS" /\
  action_setter "2_X_MULTI_PRESS" = Ok "2_X_MULTI_PRESS" /\
  ~ canonical_action "2_X_MULTI_PRESS".
Proof.
  split; [exact action_2_X_not_listed |].
  split; [reflexivity | exact action_2_X_not_canonical].
Qed.

Lemma action_setter_accepted (a stored : string) :
  action_setter a = Ok stored <-> accepted_action_input a stored.
Proof.
  unfold action_setter, accepted_action_input.
  destruct (String.eqb_spec a "SHORT_PRESS") as [-> | Hs].
  { cbn. split; [intros [= <-]; left; auto | ].
    intros [[_ ->] | [[H _] | [H _]]]; try reflexivity; discriminate. }
  destruct (String.eqb_spec a "LONG_PRESS") as [-> | Hl].
  { cbn. split; [intros [= <-]; left; auto | ].
    intros [[_ ->] | [[H _] | [H _]]]; try reflexivity; discriminate. }
  destruct (String.eqb_spec a "HOLD") as [-> | Hh].
  { cbn. split; [intros [= <-]; left; auto | ].
    intros [[_ ->] | [[H _] | [H _]]]; try reflexivity; discriminate. }
  cbn [orb].
  destruct (String.eqb_spec a "DOUBLE_PRESS") as [-> | Hd].
  { cbn. split; [intros [= <-]; right; left; auto | ].
    intros [[[H | [H | H]] _] | [[_ ->] | [H _]]];
      try reflexivity; discriminate. }
  destruct (Py.endswith a MULTI_PRESS_SUFFIX) eqn:Eend; cbn [negb].
  - destruct (Py.int (Py.split_first "_" a)) as [num | e] eqn:Eint.
    + destruct (num <? 1)%Z eqn:Enum.
      * apply Z.ltb_lt in Enum. split; [discriminate |].
        intros [[[H | [H | H]] _] | [[H _] | (_ & n & Hn & Hle & _)]];
          try contradiction.
        injection Hn as <-. lia.
      * apply Z.ltb_ge in Enum. split.
        -- intros [= <-]. right; right. split; [reflexivity |].
           exists num. auto.
        -- intros [[[H | [H | H]] _] | [[H _] | (_ & n & Hn & _ & ->)]];
             try contradiction.
           injection Hn as <-. reflexivity.
    + split; [discriminate |].
      intros [[[H | [H | H]] _] | [[H _] | (_ & n & Hn & _)]];
        try contradiction.
      discriminate.
  - split; [discriminate |].
    intros [[[H | [H | H]] _] | [[H _] | (H & _)]];
      try contradiction.
    discriminate.
Qed.

Lemma action_setter_error (a : string) (e : exn) :
  action_setter a = Raise e ->
  e = ValueError ("Invalid action: " ++ a ++ ".").
Proof.
  unfold action_setter.
  destruct (String.eqb a "SHORT_PRESS" || String.eqb a "LONG_PRESS"
            || String.eqb a "HOLD"); [discriminate |].
  destruct (String.eqb_spec a "DOUBLE_PRESS") as [-> | Hd];
    [cbn; discriminate |].
  destruct (Py.endswith a MULTI_PRESS_SUFFIX); cbn [negb].
  - destruct (Py.int (Py.split_first "_" a)) as [num | e'].
    + destruct (num <? 1)%Z; [| discriminate]. intros [= <-]. reflexivity.
    + intros [= <-]. reflexivity.
  - intros [= <-]. reflexivity.
Qed.

(** What is stored never names a count of one. *)
Lemma action_setter_never_count_one (a stored : string) :
  action_setter a = Ok stored ->
  Py.int (Py.split_first "_" stored) <> Ok 1%Z.
Proof.
  intros H. apply action_setter_accepted in H.
  destruct H as [[[-> | [-> | ->]] ->] | [[_ ->] | (_ & n & Hn & Hle & ->)]];
    try (vm_compute; discriminate).
  destruct (n =? 1)%Z eqn:E.
  - vm_compute; discriminate.
  - apply Z.eqb_neq in E. rewrite Hn. congruence.
Qed.

(** What the setter does on every input.  It keeps SHORT_PRESS, LONG_PRESS
    and HOLD, stores DOUBLE_PRESS as the multi-press of count 2, and stores
    [N] followed by the suffix, for every positive [N], as SHORT_PRESS when
    [N = 1] and as given otherwise.  Its test of the shape looks only at
    the end of the string and at the part before the first underscore, so
    it accepts exactly the inputs of [accepted_action_input]; every other
    input fails with the invalid-action error, among them the four
    malformed names of the specification, and no stored action names a
    count of one. *)
Lemma action_setter_effect :
  action_setter "SHORT_PRESS" = Ok "SHORT_PRESS" /\
  action_setter "LONG_PRESS" = Ok "LONG_PRESS" /\
  action_setter "HOLD" = Ok "HOLD" /\
  action_setter "DOUBLE_PRESS" = Ok (multi_press_name 2) /\
  (forall n : Z,
      (1 <= n)%Z ->
      action_setter (multi_press_name n)
      = Ok (if (n =? 1)%Z then "SHORT_PRESS" else multi_press_name n)) /\
  (forall a stored : string,
      action_setter a = Ok stored <-> accepted_action_input a stored) /\
  (forall a : string,
      (forall stored, ~ accepted_action_input a stored) ->
      action_setter a = Raise (ValueError ("Invalid action: " ++ a ++ "."))) /\
  (forall a stored : string,
      action_setter a = Ok stored ->
      Py.int (Py.split_first "_" stored) <> Ok 1%Z) /\
  is_ok (action_setter "0_MULTI_PRESS") = false /\
  is_ok (action_setter "-1_MULTI_PRESS") = false /\
  is_ok (action_setter "3.0_MULTI_PRESS") = false /\
  is_ok (action_setter "_MULTI_PRESS") = false.
Proof.
  repeat match goal with |- _ /\ _ => split end; try reflexivity.
  - intros n Hn. apply action_setter_multi_press_name. exact Hn.
  - apply action_setter_accepted.
  - intros a Hnone.
    destruct (action_setter a) as [stored | e] eqn:E.
    + apply action_setter_accepted in E. destruct (Hnone stored E).
    + apply action_setter_error in E. rewrite E. reflexivity.
  - apply action_setter_never_count_one.
Qed.

End Actions.

(** ** Draining the event queue *)

Lemma drain_empty (fuel : nat) (arrivals : nat -> list Event.t) (k : nat)
  (buttons : list Button) (inputs : list ButtonInput) (c : nat) :
  drain (S fuel) arrivals k buttons [] inputs c
  = Some (mkPoll buttons [] (Ok inputs) c).
Proof. reflexivity. Qed.

Lemma drain_cons (fuel : nat) (arrivals : nat -> list Event.t) (k : nat)
  (buttons : list Button) (event : Event.t) (queue : EventQueue)
  (inputs : list ButtonInput) (c : nat) :
  drain (S fuel) arrivals k buttons (event :: queue) inputs c
  = let '(buttons, r) := _handle_event buttons event in
    let queue := (queue ++ arrivals k)%list in
    match r with
    | Raise e => Some (mkPoll buttons queue (Raise e) (S c))
    | Ok None => drain fuel arrivals (S k) buttons queue inputs (S c)
    | Ok (Some input_) =>
        drain fuel arrivals (S k) buttons queue (set_add input_ inputs) (S c)
    end.
Proof.
  cbn [drain].
  destruct (0 <? Z.of_nat (List.length (event :: queue))) eqn:E.
  - reflexivity.
  - apply Z.ltb_ge in E. cbn [List.length] in E. lia.
Qed.

(** A drain that ends normally ends on an empty queue, having consumed the
    events queued at its start and all that arrived meanwhile. *)
Lemma drain_consumed (fuel : nat) :
  forall (arrivals : nat -> list Event.t) (k : nat) (buttons : list Button)
         (queue : EventQueue) (inputs : list ButtonInput) (c : nat) (p : Poll),
    drain fuel arrivals k buttons queue inputs c = Some p ->
    exists n : nat,
      poll_consumed p = (c + n)%nat /\
      (is_ok (poll_result p) = true ->
       poll_queue p = [] /\
       n = (List.length queue + arrived arrivals k n)%nat).
Proof.
  induction fuel as [| fuel IH]; intros arrivals k buttons queue inputs c p H.
  - discriminate.
  - destruct queue as [| event queue].
    + rewrite drain_empty in H. injection H as <-.
      exists O. cbn. split; [lia | auto].
    + rewrite drain_cons in H.
      destruct (_handle_event buttons event) as [buttons' r].
      assert (Hrec : forall inputs',
                 drain fuel arrivals (S k) buttons' (queue ++ arrivals k)
                   inputs' (S c) = Some p ->
                 exists n : nat,
                   poll_consumed p = (c + n)%nat /\
                   (is_ok (poll_result p) = true ->
                    poll_queue p = [] /\
                    n = (List.length (event :: queue)
                         + arrived arrivals k n)%nat)).
      { intros inputs' H'. apply IH in H'.
        destruct H' as (n & Hn & Hok). exists (S n). split; [lia |].
        intros Hr. destruct (Hok Hr) as [Hq Hcount]. split; [exact Hq |].
        rewrite length_app in Hcount. cbn [List.length arrived]. lia. }
      destruct r as [[input_ |] | e].
      * apply (Hrec _ H).
      * apply (Hrec _ H).
      * injection H as <-. exists 1%nat. cbn. split; [lia | discriminate].
Qed.

(** With a silent scanner the drain ends within as many iterations as the
    queue is long. *)
Lemma drain_silent (queue : EventQueue) :
  forall (fuel k : nat) (buttons : list Button) (inputs : list ButtonInput)
         (c : nat),
    (List.length queue < fuel)%nat ->
    exists p : Poll,
      drain fuel no_arrivals k buttons queue inputs c = Some p /\
      (poll_consumed p <= c + List.length queue)%nat.
Proof.
  induction queue as [| event queue IH]; intros fuel k buttons inputs c Hfuel;
    (destruct fuel as [| fuel]; [cbn in Hfuel; lia |]).
  - rewrite drain_empty. eexists. split; [reflexivity |]. cbn. lia.
  - rewrite drain_cons. cbn [List.length] in *.
    destruct (_handle_event buttons event) as [buttons' r].
    unfold no_arrivals at 1. rewrite app_nil_r.
    destruct r as [[input_ |] | e].
    + destruct (IH fuel (S k) buttons' (set_add input_ inputs) (S c))
        as (p & Hp & Hle); [lia |].
      exists p. split; [exact Hp | lia].
    + destruct (IH fuel (S k) buttons' inputs (S c)) as (p & Hp & Hle);
        [lia |].
      exists p. split; [exact Hp | lia].
    + eexists. split; [reflexivity |]. cbn. lia.
Qed.

(** A press of key 0 on a handler of one button never raises. *)
Lemma handle_press_single (button : Button) (time : Z) :
  _handle_event [button] (Event.make 0 true time)
  = ([press_transition (Event.make 0 true time) button], Ok None).
Proof. reflexivity. Qed.

(** While the scanner reports a press in every iteration, the loop is still
    running after any number of iterations. *)
Lemma drain_busy (fuel : nat) :
  forall (k : nat) (button : Button) (time : Z) (queue : EventQueue)
         (inputs : list ButtonInput) (c : nat),
    Forall (fun e => Event.key_number e = 0 /\ Event.pressed e = true) queue ->
    drain fuel busy_scanner k [button] (Event.make 0 true time :: queue)
      inputs c = None.
Proof.
  induction fuel as [| fuel IH]; intros k button time queue inputs c Hq.
  - reflexivity.
  - rewrite drain_cons, handle_press_single.
    cbv beta iota zeta.
    destruct queue as [| [key pressed time'] queue].
    + cbn [app busy_scanner]. apply IH. constructor.
    + inversion Hq as [| ? ? [Hkey Hpressed] Hrest]; subst.
      cbn in Hkey, Hpressed. subst key pressed.
      cbn [app]. apply IH.
      apply Forall_app. split; [exact Hrest |].
      repeat constructor.
Qed.

(** C8, as stated, fails: the queue holds one event when the poll starts,
    the scanner appends one more during the first iteration, and the poll
    consumes both. *)
Lemma drain_consumes_late_arrival :
  List.length [Event.make 0 true 0] = 1%nat /\
  option_map poll_consumed
    (update 3
       (fun k => match k with
                 | O => [Event.make 0 false 10]
                 | S _ => []
                 end)
       20 [fresh_button] [Event.make 0 true 0])
  = Some 2%nat.
Proof. split; reflexivity. Qed.

(** ** Hold reports over the polls of one press *)

(** A poll changes neither [is_pressed] nor the start of the press nor the
    threshold, and sets [is_holding] exactly when the hold check fires. *)
Lemma handle_buttons_body_fields (now : Z) (button : Button)
  (inputs : list ButtonInput) :
  let after := fst (handle_buttons_body now button inputs) in
  _is_pressed after = _is_pressed button /\
  _press_start_time after = _press_start_time button /\
  long_press_threshold after = long_press_threshold button /\
  _is_holding after = _is_holding button || snd (_is_held now button).
Proof.
  unfold handle_buttons_body, _is_held, timeout_branch,
    _check_multi_press_timeout.
  destruct (_is_holding button) eqn:Eh, (_is_pressed button) eqn:Ep;
    cbn [negb andb fst snd];
    try destruct (long_press_threshold button
                  <=? timestamp_diff now (_press_start_time button));
    cbn [negb andb fst snd]; rewrite ?Eh, ?Ep; cbn [negb andb fst snd];
    try rewrite andb_false_r;
    try (destruct (0 <? _press_count button); cbn [negb andb fst snd]);
    try (destruct (_last_press_time button) as [last |]);
    try (destruct (multi_press_interval button <? timestamp_diff now last));
    try (destruct (_press_count button =? 0));
    cbn; rewrite ?Eh, ?Ep; auto.
Qed.

(** The timeout check never adds an input named HOLD. *)
Lemma multi_press_action_not_hold (n : Z) :
  1 <= n -> String.eqb (multi_press_action n) "HOLD" = false.
Proof.
  intros Hn. unfold multi_press_action.
  destruct (n =? 1); [reflexivity |].
  apply multi_press_name_not_literal; auto.
Qed.

(** A poll reports HOLD exactly when [_is_held] returns true. *)
Lemma reports_hold_is_held (now : Z) (button : Button) :
  reports_hold now button = snd (_is_held now button).
Proof.
  unfold reports_hold, handle_buttons_body.
  destruct (_is_held now button) as [button' held] eqn:Eheld.
  destruct held; [reflexivity |].
  cbn [snd]. unfold timeout_branch, _check_multi_press_timeout.
  destruct (0 <? _press_count button') eqn:Ecount; cbn [andb];
    [| reflexivity].
  destruct (_is_pressed button'); cbn [negb]; [reflexivity |].
  destruct (_last_press_time button') as [last |]; [| reflexivity].
  destruct (multi_press_interval button' <? timestamp_diff now last);
    [| reflexivity].
  apply Z.ltb_lt in Ecount.
  destruct (_press_count button' =? 0) eqn:E0; [reflexivity |].
  cbn [_button_number set_press_count set_last_press_time snd].
  rewrite add_input_multi_press_name by lia.
  cbn [set_add _action]. apply multi_press_action_not_hold. lia.
Qed.

(** Once [is_holding] is set, no poll reports HOLD. *)
Lemma no_hold_report_while_holding (times : list Z) :
  forall button : Button,
    _is_holding button = true -> fst (hold_reports times button) = O.
Proof.
  induction times as [| now times IH]; intros button Hh; [reflexivity |].
  cbn [hold_reports].
  pose proof (handle_buttons_body_fields now button []) as (_ & _ & _ & Hh').
  rewrite Hh in Hh'. cbn [orb] in Hh'. specialize (IH _ Hh').
  destruct (hold_reports times (fst (handle_buttons_body now button [])))
    as [n button'].
  cbn [fst] in *. subst n.
  rewrite reports_hold_is_held. unfold _is_held. rewrite Hh. reflexivity.
Qed.

(** X19: HOLD is reported at most once over any polls between two events. *)
Lemma hold_reported_at_most_once (times : list Z) :
  forall button : Button, (fst (hold_reports times button) <= 1)%nat.
Proof.
  induction times as [| now times IH]; intros button; [cbn; lia |].
  cbn [hold_reports].
  pose proof (handle_buttons_body_fields now button []) as (_ & _ & _ & Hh).
  pose proof (no_hold_report_while_holding times
                (fst (handle_buttons_body now button []))) as Hnone.
  specialize (IH (fst (handle_buttons_body now button []))).
  rewrite <- reports_hold_is_held in Hh.
  destruct (hold_reports times (fst (handle_buttons_body now button [])))
    as [n button'].
  cbn [fst] in *.
  destruct (reports_hold now button).
  - rewrite orb_true_r in Hh. rewrite (Hnone Hh). lia.
  - exact IH.
Qed.

(** X18: a press that starts with [is_holding] cleared reports HOLD exactly once
    when some poll finds it at or past the threshold. *)
Lemma hold_reported_once (times : list Z) :
  forall button : Button,
    _is_holding button = false ->
    _is_pressed button = true ->
    Exists (fun now =>
              long_press_threshold button
              <= timestamp_diff now (_press_start_time button)) times ->
    fst (hold_reports times button) = 1%nat.
Proof.
  induction times as [| now times IH]; intros button Hh Hp Hex;
    [inversion Hex |].
  cbn [hold_reports].
  pose proof (handle_buttons_body_fields now button [])
    as (Hp' & Hs' & Ht' & Hh').
  pose proof (no_hold_report_while_holding times
                (fst (handle_buttons_body now button []))) as Hnone.
  specialize (IH (fst (handle_buttons_body now button []))).
  rewrite <- reports_hold_is_held in Hh'.
  rewrite Hs', Ht', Hp' in IH.
  destruct (hold_reports times (fst (handle_buttons_body now button [])))
    as [n button'].
  cbn [fst] in *.
  destruct (reports_hold now button) eqn:Er.
  - rewrite orb_true_r in Hh'. rewrite (Hnone Hh'). reflexivity.
  - rewrite orb_false_r in Hh'. apply IH; [congruence | exact Hp |].
    inversion Hex as [? ? Hnow | ? ? Hlater]; subst; [| exact Hlater].
    rewrite reports_hold_is_held in Er. unfold _is_held in Er.
    rewrite Hh, Hp in Er. apply Z.leb_le in Hnow. rewrite Hnow in Er.
    discriminate.
Qed.

(** C3 holds on a press that starts with [is_holding] cleared, but the code
    does not always clear it: a button pressed at tick 0 is polled at tick
    1005, which reports HOLD, and the release scanned at tick 900 is drained
    in the same poll as a short release, which leaves [is_holding] set.
    The next press, at tick 2000, is polled at tick 3005, past the
    threshold, and no HOLD is reported, then or at any later poll. *)
Theorem hold_not_reported_after_short_release :
  let b1 := mkButton 0 true 1000 2 175 (Some 0) 1 0 false true in
  let b2 := mkButton 0 true 1000 2 175 (Some 0) 1 0 true false in
  let b3 := mkButton 0 true 1000 2 175 (Some 2000) 1 2000 true true in
  ButtonHandler_init 1 (fun _ => None) = Ok [fresh_button] /\
  update 2 no_arrivals 5 [fresh_button] [Event.make 0 true 0]
  = Some (mkPoll [b1] [] (Ok []) 1) /\
  update 2 no_arrivals 1005 [b1] [Event.make 0 false 900]
  = Some (mkPoll [b2] [] (Ok [mkInput "HOLD" 0 1005]) 1) /\
  update 2 no_arrivals 2005 [b2] [Event.make 0 true 2000]
  = Some (mkPoll [b3] [] (Ok [mkInput "SHORT_PRESS" 0 2005]) 1) /\
  _is_pressed b3 = true /\
  long_press_threshold b3 <= timestamp_diff 3005 (_press_start_time b3) /\
  update 1 no_arrivals 3005 [b3] [] = Some (mkPoll [b3] [] (Ok []) 0) /\
  (forall times : list Z, fst (hold_reports times b3) = O).
Proof.
  cbv zeta.
  repeat match goal with |- _ /\ _ => split end;
    try reflexivity.
  - vm_compute. discriminate.
  - intros times. apply no_hold_report_while_holding. reflexivity.
Qed.

(** ** The invariant of a button *)

Lemma run_pending_ok_step (o : op) (b : Button) :
  run_pending_ok b -> run_pending_ok (apply_op o b).
Proof.
  unfold run_pending_ok. intros (Hmax & Hcount & Hlast).
  destruct o as [key time | key time | now | now]; cbn [apply_op].
  - unfold handle_event_on, press_transition. cbn.
    destruct (_press_count b <? max_multi_press b) eqn:E; cbn;
      [apply Z.ltb_lt in E | apply Z.ltb_ge in E];
      (split; [exact Hmax |]); (split; [lia |]); intros _.
    + discriminate.
    + apply Hlast. lia.
  - unfold handle_event_on, release_transition. cbn.
    destruct (timestamp_diff time (_press_start_time b)
              <? long_press_threshold b);
      [destruct (enable_multi_press b); cbn [negb];
       [destruct (_press_count b =? max_multi_press b);
        [destruct (ButtonInput_init _ _ _) |] |] |];
      cbn; (split; [exact Hmax |]); (split; [lia |]);
      first [exact Hlast | intros; lia].
  - unfold _is_held.
    destruct (negb (_is_holding b) && _is_pressed b
              && (long_press_threshold b
                  <=? timestamp_diff now (_press_start_time b)));
      cbn; auto.
  - unfold _check_multi_press_timeout.
    destruct ((0 <? _press_count b) && negb (_is_pressed b)); cbn; auto.
    destruct (_last_press_time b) as [last |] eqn:El; cbn.
    + destruct (multi_press_interval b <? timestamp_diff now last); cbn.
      * split; [exact Hmax |]. split; [lia |]. intros; lia.
      * rewrite El. auto.
    + rewrite El. auto.
Qed.

(** X20: the first half of the invariant holds on every reachable state of a
    button whose [max_multi_press] is at least 1. *)
Lemma pending_run_has_last_press_time (number : Z) (config : ButtonInitConfig)
  (init b : Button) :
  1 <= cfg_max_multi_press config ->
  Button_init number config = Ok init ->
  reachable init b ->
  0 < _press_count b -> _last_press_time b <> None.
Proof.
  intros Hmax Hinit Hreach.
  assert (Hok : run_pending_ok b).
  { induction Hreach as [| b o _ IH].
    - unfold Button_init in Hinit.
      destruct (number <? 0); [discriminate |].
      injection Hinit as <-. unfold run_pending_ok. cbn.
      split; [exact Hmax |]. split; lia.
    - apply run_pending_ok_step. exact IH. }
  apply Hok.
Qed.

(** C4: the second half of the invariant fails on a reachable state.  A
    button with the default configuration is pressed at tick 0, the hold
    check at tick 1000 sets [is_holding], and the release scanned at tick
    990 is a short one, which clears [is_pressed] and leaves [is_holding]
    set; the first half of the invariant holds there. *)
Theorem holding_survives_short_release :
  let b := run [PressEvent 0 0; HoldCheck 1000; ReleaseEvent 0 990]
             fresh_button in
  Button_init 0 default_config = Ok fresh_button /\
  reachable fresh_button b /\
  _is_holding b = true /\ _is_pressed b = false /\
  _press_count b = 1 /\ _last_press_time b = Some 0.
Proof.
  cbv zeta. split; [reflexivity |]. split.
  - apply (reachable_step _ _ (ReleaseEvent 0 990)).
    apply (reachable_step _ _ (HoldCheck 1000)).
    apply (reachable_step _ _ (PressEvent 0 0)).
    apply reachable_init.
  - repeat split; reflexivity.
Qed.

(** * Further properties of the code *)

(** ** Ticks across the wrap of the counter *)

(** X1: when the counter read [b] and reads [(b + d) mod P] after [d < P] more
    ticks, [timestamp_diff] returns [d], whether or not the counter wrapped
    in between. *)
Theorem timestamp_diff_elapsed (b d : Z) :
  0 <= d < _TICKS_PERIOD ->
  timestamp_diff ((b + d) mod _TICKS_PERIOD) b = d.
Proof.
  intros Hd. rewrite timestamp_diff_spec.
  change _TICKS_PERIOD with (2 ^ 29) in *.
  rewrite Zminus_mod_idemp_l.
  replace (b + d - b) with d by lia.
  apply Z.mod_small. exact Hd.
Qed.

Lemma timestamp_diff_elapsed_witness :
  0 <= 10 < _TICKS_PERIOD /\
  timestamp_diff ((_TICKS_PERIOD - 5 + 10) mod _TICKS_PERIOD)
    (_TICKS_PERIOD - 5) = 10.
Proof.
  split; [vm_compute; split; [discriminate | reflexivity] |].
  apply (timestamp_diff_elapsed (_TICKS_PERIOD - 5) 10).
  vm_compute. split; [discriminate | reflexivity].
Defined.

(** X2: with the arguments the other way round, the first tick [d] ticks before
    the second, the result is not [- d] but [P - d]: the difference is never
    signed. *)
Theorem timestamp_diff_backwards (b d : Z) :
  0 < d < _TICKS_PERIOD ->
  timestamp_diff b ((b + d) mod _TICKS_PERIOD) = _TICKS_PERIOD - d.
Proof.
  intros Hd. rewrite timestamp_diff_spec.
  change _TICKS_PERIOD with (2 ^ 29) in *.
  rewrite Zminus_mod_idemp_r.
  replace (b - (b + d)) with (2 ^ 29 - d + (-1) * 2 ^ 29) by lia.
  rewrite Z_mod_plus_full. apply Z.mod_small. lia.
Qed.

Lemma timestamp_diff_backwards_witness :
  0 < 10 < _TICKS_PERIOD /\
  timestamp_diff 100 ((100 + 10) mod _TICKS_PERIOD) = _TICKS_PERIOD - 10.
Proof.
  split; [vm_compute; split; reflexivity |].
  apply (timestamp_diff_backwards 100 10).
  vm_compute. split; reflexivity.
Defined.

(** ** Counts rendered as actions *)

Section CountNames.

Local Open Scope string_scope.

Lemma str_neg (p : positive) :
  Py.str (Z.neg p) = String "-" (NilEmpty.string_of_uint (Pos.to_uint p)).
Proof.
  unfold Py.str. simpl.
  pose proof (Unsigned.to_uint_nonnil p) as Hn.
  destruct (Pos.to_uint p); try reflexivity. contradiction.
Qed.

Lemma uint_string_nonempty (d : uint) :
  d <> Nil -> NilEmpty.string_of_uint d <> "".
Proof. destruct d; intros H; try discriminate. contradiction. Qed.

Lemma strip_minus_uint (d : uint) :
  d <> Nil ->
  Py.strip (String "-" (NilEmpty.string_of_uint d))
  = String "-" (NilEmpty.string_of_uint d).
Proof.
  intros Hd. unfold Py.strip.
  assert (Hl : forall r, Py.lstrip (String "-" r) = String "-" r)
    by reflexivity.
  rewrite Hl.
  assert (Hr : forall r,
             Py.rstrip (String "-" r)
             = match Py.rstrip r with
               | EmptyString => String "-" EmptyString
               | r' => String "-" r'
               end) by reflexivity.
  rewrite Hr, rstrip_uint.
  pose proof (uint_string_nonempty d Hd) as Hne.
  destruct (NilEmpty.string_of_uint d); [contradiction | reflexivity].
Qed.

Lemma int_str_neg (p : positive) : Py.int (Py.str (Z.neg p)) = Ok (Z.neg p).
Proof.
  rewrite str_neg.
  pose proof (Unsigned.to_uint_nonnil p) as Hn.
  unfold Py.int. rewrite strip_minus_uint by exact Hn.
  rewrite digits_uint by exact Hn.
  rewrite of_uint_to_uint. reflexivity.
Qed.

(** [int(str(n))] is [n] for every integer [n]. *)
Lemma int_str_any (n : Z) : Py.int (Py.str n) = Ok n.
Proof.
  destruct n as [| p | p].
  - reflexivity.
  - apply int_str. lia.
  - apply int_str_neg.
Qed.

Lemma split_first_name_any (n : Z) :
  Py.split_first "_" (multi_press_name n) = Py.str n.
Proof.
  destruct n as [| p | p].
  - reflexivity.
  - apply split_first_multi_press_name. lia.
  - unfold multi_press_name. rewrite str_neg. cbn [append Py.split_first].
    change (Ascii.eqb "-" "_") with false. cbv iota.
    f_equal. apply (split_first_uint _ "MULTI_PRESS").
Qed.

Lemma name_not_literal_any (n : Z) (lit : string) :
  lit = "SHORT_PRESS" \/ lit = "LONG_PRESS" \/ lit = "HOLD"
  \/ lit = "DOUBLE_PRESS" ->
  String.eqb (multi_press_name n) lit = false.
Proof.
  intros Hlit. destruct n as [| p | p].
  - destruct Hlit as [-> | [-> | [-> | ->]]]; reflexivity.
  - apply multi_press_name_not_literal; [lia | exact Hlit].
  - unfold multi_press_name. rewrite str_neg.
    destruct Hlit as [-> | [-> | [-> | ->]]]; reflexivity.
Qed.

(** What constructing the action of any count does. *)
Lemma action_setter_name_any (n : Z) :
  action_setter (multi_press_name n)
  = if (n <? 1)%Z
    then Raise (ValueError ("Invalid action: " ++ multi_press_name n ++ "."))
    else Ok (multi_press_action n).
Proof.
  unfold action_setter.
  rewrite !name_not_literal_any by auto.
  cbn [orb negb].
  assert (He : Py.endswith (multi_press_name n) MULTI_PRESS_SUFFIX = true)
    by apply endswith_app.
  rewrite He. cbn [negb].
  rewrite split_first_name_any, int_str_any.
  destruct (n <? 1)%Z; reflexivity.
Qed.

(** X3: the input that [_handle_buttons] and [_handle_event] build from a count
    with the f-string exists exactly when the count is positive; it is then
    the short press for a count of 1 and carries the count otherwise, and
    the count can be read back from what is stored. *)
Theorem count_action_valid_iff_positive (n key time : Z) :
  (is_ok (ButtonInput_init (multi_press_name n) key time) = true
   <-> (1 <= n)%Z) /\
  ((1 <= n)%Z ->
   ButtonInput_init (multi_press_name n) key time
   = Ok (mkInput (if (n =? 1)%Z then "SHORT_PRESS" else multi_press_name n)
           key time)) /\
  ((2 <= n)%Z ->
   Py.int (Py.split_first "_" (multi_press_name n)) = Ok n) /\
  ((n < 1)%Z ->
   ButtonInput_init (multi_press_name n) key time
   = Raise (ValueError ("Invalid action: " ++ multi_press_name n ++ "."))).
Proof.
  unfold ButtonInput_init. rewrite action_setter_name_any.
  repeat split.
  - destruct (n <? 1)%Z eqn:E; cbn; [discriminate |].
    intros _. apply Z.ltb_ge in E. exact E.
  - intros Hn. destruct (n <? 1)%Z eqn:E; [| reflexivity].
    apply Z.ltb_lt in E. lia.
  - intros Hn. destruct (n <? 1)%Z eqn:E; [| reflexivity].
    apply Z.ltb_lt in E. lia.
  - intros _. rewrite split_first_name_any. apply int_str_any.
  - intros Hn. apply Z.ltb_lt in Hn. rewrite Hn. reflexivity.
Qed.

End CountNames.

(** ** Constructing the handler *)

Lemma make_buttons_spec (config : Z -> option ButtonInitConfig) (n : nat) :
  forall i : Z,
    0 <= i ->
    exists buttons : list Button,
      make_buttons n i config = Ok buttons /\
      List.length buttons = n /\
      forall k : nat,
        (k < n)%nat ->
        let conf := match config (i + Z.of_nat k) with
                    | Some c => c
                    | None => default_config
                    end in
        nth_error buttons k
        = Some (mkButton (i + Z.of_nat k)
                  (cfg_enable_multi_press conf) (cfg_long_press_threshold conf)
                  (cfg_max_multi_press conf) (cfg_multi_press_interval conf)
                  None 0 0 false false).
Proof.
  induction n as [| n IH]; intros i Hi.
  - exists []. split; [reflexivity |]. split; [reflexivity |].
    intros k Hk. lia.
  - cbn [make_buttons]. unfold Button_init.
    destruct (i <? 0) eqn:E; [apply Z.ltb_lt in E; lia |].
    destruct (IH (i + 1)) as (rest & Hrest & Hlen & Hnth); [lia |].
    rewrite Hrest. eexists. split; [reflexivity |].
    split; [cbn; rewrite Hlen; reflexivity |].
    intros [| k] Hk.
    + cbn. rewrite Z.add_0_r. reflexivity.
    + cbn [nth_error]. specialize (Hnth k ltac:(lia)).
      replace (i + Z.of_nat (S k)) with (i + 1 + Z.of_nat k) by lia.
      exact Hnth.
Qed.

(** X4: [ButtonHandler(queue, button_amount, config)] raises [ValueError] for
    an amount below 1 and otherwise makes exactly [button_amount] buttons:
    the button at index [i] has number [i], the configuration stored for
    [i] or the defaults when there is none, and starts released, not
    holding and with no run pending.  An amount of 1 is accepted, whatever
    the error message says. *)
Theorem ButtonHandler_init_buttons (button_amount : Z)
  (config : Z -> option ButtonInitConfig) :
  (button_amount < 1 ->
   ButtonHandler_init button_amount config
   = Raise (ValueError "button_amount must be bigger than 1.")) /\
  (1 <= button_amount ->
   exists buttons : list Button,
     ButtonHandler_init button_amount config = Ok buttons /\
     Z.of_nat (List.length buttons) = button_amount /\
     forall i : Z,
       0 <= i < button_amount ->
       let conf := match config i with
                   | Some c => c
                   | None => default_config
                   end in
       nth_error buttons (Z.to_nat i)
       = Some (mkButton i
                 (cfg_enable_multi_press conf) (cfg_long_press_threshold conf)
                 (cfg_max_multi_press conf) (cfg_multi_press_interval conf)
                 None 0 0 false false)).
Proof.
  unfold ButtonHandler_init. split; intros H.
  - apply Z.ltb_lt in H. rewrite H. reflexivity.
  - destruct (button_amount <? 1) eqn:E; [apply Z.ltb_lt in E; lia |].
    destruct (make_buttons_spec config (Z.to_nat button_amount) 0)
      as (buttons & Hmake & Hlen & Hnth); [lia |].
    exists buttons. split; [exact Hmake |]. split; [lia |].
    intros i Hi. specialize (Hnth (Z.to_nat i) ltac:(lia)).
    cbn zeta in Hnth. rewrite Z.add_0_l, Z2Nat.id in Hnth by lia.
    exact Hnth.
Qed.

(** ** Routing an event to its button *)

Lemma ButtonInput_init_error (action : string) (key time : Z) (e : exn) :
  ButtonInput_init action key time = Raise e ->
  e = ValueError ("Invalid action: " ++ action ++ ".").
Proof.
  unfold ButtonInput_init.
  destruct (action_setter action) eqn:E; [discriminate |].
  intros [= <-]. apply action_setter_error. exact E.
Qed.

(** An event handled on its button raises nothing but [ValueError]. *)
Lemma handle_event_on_error (event : Event.t) (button : Button) (e : exn) :
  snd (handle_event_on event button) = Raise e ->
  exists msg, e = ValueError msg.
Proof.
  unfold handle_event_on, release_transition.
  destruct (Event.pressed event); [discriminate |].
  destruct (_ <? _);
    [destruct (negb _); [| destruct (_ =? _)] |];
    try (destruct (ButtonInput_init _ _ _) eqn:E; cbn;
         [discriminate |];
         intros [= <-]; apply ButtonInput_init_error in E; eauto).
  discriminate.
Qed.

Lemma handle_event_on_setup (event : Event.t) (button : Button) :
  same_setup button (fst (handle_event_on event button)).
Proof.
  unfold same_setup, handle_event_on, release_transition, press_transition.
  destruct (Event.pressed event).
  - cbn. destruct (_ <? _); cbn; auto.
  - destruct (_ <? _);
      [destruct (negb _); [| destruct (_ =? _)] |];
      try destruct (ButtonInput_init _ _ _); cbn; auto.
Qed.

Lemma index_in_range {A : Type} (l : list A) (i : Z) (k : nat) :
  Py.index l i = Some k -> (k < List.length l)%nat.
Proof.
  unfold Py.index.
  destruct ((0 <=? i) && (i <? Z.of_nat (List.length l))) eqn:E1.
  - apply andb_true_iff in E1. destruct E1 as [H1 H2].
    apply Z.leb_le in H1. apply Z.ltb_lt in H2. intros [= <-]. lia.
  - destruct ((- Z.of_nat (List.length l) <=? i) && (i <? 0)) eqn:E2;
      [| discriminate].
    apply andb_true_iff in E2. destruct E2 as [H1 H2].
    apply Z.leb_le in H1. apply Z.ltb_lt in H2. intros [= <-]. lia.
Qed.

Lemma index_none {A : Type} (l : list A) (i : Z) :
  Py.index l i = None
  <-> i < - Z.of_nat (List.length l) \/ Z.of_nat (List.length l) <= i.
Proof.
  unfold Py.index.
  destruct (0 <=? i) eqn:E0; destruct (i <? Z.of_nat (List.length l)) eqn:E1;
    destruct (- Z.of_nat (List.length l) <=? i) eqn:E2;
    destruct (i <? 0) eqn:E3; cbn;
    try apply Z.leb_le in E0; try apply Z.leb_gt in E0;
    try apply Z.ltb_lt in E1; try apply Z.ltb_ge in E1;
    try apply Z.leb_le in E2; try apply Z.leb_gt in E2;
    try apply Z.ltb_lt in E3; try apply Z.ltb_ge in E3;
    split; intros H; try discriminate; try lia; reflexivity.
Qed.

Lemma length_list_set {A : Type} (k : nat) (x : A) (l : list A) :
  List.length (list_set k x l) = List.length l.
Proof.
  revert k. induction l as [| y l IH]; intros [| k]; cbn; auto.
Qed.

Lemma nth_error_list_set_same {A : Type} (k : nat) (x : A) (l : list A) :
  (k < List.length l)%nat -> nth_error (list_set k x l) k = Some x.
Proof.
  revert k. induction l as [| y l IH]; intros [| k] H; cbn in *;
    try lia; auto.
  apply IH. lia.
Qed.

Lemma nth_error_list_set_other {A : Type} (k j : nat) (x : A) (l : list A) :
  j <> k -> nth_error (list_set k x l) j = nth_error l j.
Proof.
  revert k j. induction l as [| y l IH]; intros [| k] [| j] H; cbn;
    try reflexivity; try contradiction.
  apply IH. congruence.
Qed.

(** X6: [_handle_event] raises [IndexError] exactly for a key number outside
    [-len, len) of the list of buttons, and then no button changes; a
    negative key number in that range is taken from the end of the list. *)
Theorem handle_event_index_error (buttons : list Button) (event : Event.t) :
  let len := Z.of_nat (List.length buttons) in
  let key := Event.key_number event in
  (snd (_handle_event buttons event) = Raise IndexError
   <-> key < - len \/ len <= key) /\
  (key < - len \/ len <= key -> fst (_handle_event buttons event) = buttons) /\
  (forall button,
      - len <= key < 0 ->
      nth_error buttons (Z.to_nat (len + key)) = Some button ->
      _handle_event buttons event
      = (list_set (Z.to_nat (len + key))
           (fst (handle_event_on event button)) buttons,
         snd (handle_event_on event button))).
Proof.
  cbv zeta. unfold _handle_event.
  destruct (Py.index buttons (Event.key_number event)) as [k |] eqn:Ei.
  - pose proof (index_in_range _ _ _ Ei) as Hk.
    assert (Hin : ~ (Event.key_number event < - Z.of_nat (List.length buttons)
                     \/ Z.of_nat (List.length buttons)
                        <= Event.key_number event)).
    { intros H. apply index_none in H. congruence. }
    destruct (nth_error buttons k) as [button |] eqn:En;
      [| apply nth_error_None in En; lia].
    destruct (handle_event_on event button) as [button' r] eqn:Eh.
    cbn [fst snd]. split; [| split].
    + split; [| intros H; contradiction].
      intros Hr. pose proof (handle_event_on_error event button IndexError) as He.
      rewrite Eh in He. destruct (He Hr) as [msg Hmsg]. discriminate.
    + intros H. contradiction.
    + intros button0 Hneg Hnth.
      unfold Py.index in Ei.
      destruct (0 <=? Event.key_number event) eqn:E0;
        [apply Z.leb_le in E0; lia |].
      cbn [andb] in Ei.
      destruct Hneg as [Hlo Hhi].
      apply Z.leb_le in Hlo. apply Z.ltb_lt in Hhi.
      rewrite Hlo, Hhi in Ei. cbn [andb] in Ei. injection Ei as <-.
      rewrite Hnth in En. injection En as ->.
      rewrite Eh. reflexivity.
  - apply index_none in Ei. cbn [fst snd]. split; [| split].
    + split; [intros _; exact Ei | reflexivity].
    + reflexivity.
    + intros button Hneg. lia.
Qed.

(** X7: [_handle_event] keeps the number of buttons, changes no button but the
    one the event names, and changes neither the number nor the
    configuration of that one. *)
Theorem handle_event_frame (buttons : list Button) (event : Event.t) :
  let after := fst (_handle_event buttons event) in
  List.length after = List.length buttons /\
  forall (j : nat) (button : Button),
    nth_error buttons j = Some button ->
    exists button' : Button,
      nth_error after j = Some button' /\
      same_setup button button' /\
      (Py.index buttons (Event.key_number event) <> Some j ->
       button' = button).
Proof.
  cbv zeta. unfold _handle_event.
  assert (Hsame : forall b : Button, same_setup b b)
    by (intros b; repeat split).
  destruct (Py.index buttons (Event.key_number event)) as [k |] eqn:Ei.
  - pose proof (index_in_range _ _ _ Ei) as Hk.
    destruct (nth_error buttons k) as [target |] eqn:En;
      [| apply nth_error_None in En; lia].
    pose proof (handle_event_on_setup event target) as Hsetup.
    destruct (handle_event_on event target) as [target' r].
    cbn [fst] in *. split; [apply length_list_set |].
    intros j button Hj. destruct (Nat.eq_dec j k) as [-> | Hjk].
    + rewrite nth_error_list_set_same by exact Hk.
      exists target'. split; [reflexivity |].
      rewrite En in Hj. injection Hj as <-.
      split; [exact Hsetup | intros H; congruence].
    + rewrite nth_error_list_set_other by exact Hjk.
      exists button. split; [exact Hj |]. split; [apply Hsame | reflexivity].
  - cbn [fst]. split; [reflexivity |].
    intros j button Hj. exists button.
    split; [exact Hj |]. split; [apply Hsame | reflexivity].
Qed.

Lemma ButtonInput_init_name_any (n key time : Z) :
  ButtonInput_init (multi_press_name n) key time
  = if n <? 1
    then Raise (ValueError
                  ("Invalid action: " ++ multi_press_name n ++ "."))
    else Ok (mkInput (multi_press_action n) key time).
Proof.
  unfold ButtonInput_init. rewrite action_setter_name_any.
  destruct (n <? 1); reflexivity.
Qed.

(** X8: handling an event on its button raises in one case only: a short
    release, with multi-press enabled, that finds [press_count] equal to a
    [max_multi_press] below 1.  The exception leaves the button released
    and its run as it was. *)
Theorem handle_event_on_raises_iff (event : Event.t) (button : Button) :
  let held :=
    timestamp_diff (Event.timestamp event) (_press_start_time button) in
  (is_ok (snd (handle_event_on event button)) = false
   <-> Event.pressed event = false /\
       held < long_press_threshold button /\
       enable_multi_press button = true /\
       _press_count button = max_multi_press button /\
       max_multi_press button < 1) /\
  (is_ok (snd (handle_event_on event button)) = false ->
   fst (handle_event_on event button) = set_is_pressed false button).
Proof.
  cbv zeta. unfold handle_event_on, release_transition.
  cbn [_press_start_time set_is_pressed long_press_threshold
         enable_multi_press _press_count max_multi_press].
  rewrite ButtonInput_init_name_any.
  destruct (Event.pressed event) eqn:Ep.
  { cbn. split; [split |]; try discriminate.
    intros (H & _). discriminate. }
  destruct (timestamp_diff (Event.timestamp event) (_press_start_time button)
            <? long_press_threshold button) eqn:Eheld;
    [apply Z.ltb_lt in Eheld | apply Z.ltb_ge in Eheld].
  - destruct (enable_multi_press button) eqn:Em; cbn [negb].
    + destruct (_press_count button =? max_multi_press button) eqn:Ec;
        [apply Z.eqb_eq in Ec | apply Z.eqb_neq in Ec].
      * destruct (max_multi_press button <? 1) eqn:Emax;
          [apply Z.ltb_lt in Emax | apply Z.ltb_ge in Emax]; cbn.
        -- split; [split; auto | reflexivity].
        -- split; [split |]; try discriminate.
           intros (_ & _ & _ & _ & H). lia.
      * cbn. split; [split |]; try discriminate.
        intros (_ & _ & _ & H & _). contradiction.
    + cbn. split; [split |]; try discriminate.
      intros (_ & _ & H & _). discriminate.
  - cbn. split; [split |]; try discriminate.
    intros (_ & H & _). lia.
Qed.

(** ** The time-triggered phase over all buttons *)

(** The three things a poll can do to a button. *)
Lemma handle_buttons_body_cases (now : Z) (button : Button)
  (inputs : list ButtonInput) :
  let after := fst (handle_buttons_body now button inputs) in
  let r := snd (handle_buttons_body now button inputs) in
  (after = button /\ (r = Ok inputs \/ r = Raise TypeError)) \/
  (after = set_is_holding true button /\
   _is_pressed button = true /\
   r = Ok (set_add (mkInput "HOLD" (_button_number button) now) inputs)) \/
  (after = clear_run button /\
   _is_pressed button = false /\ 0 < _press_count button /\
   r = Ok (set_add (mkInput (multi_press_action (_press_count button))
                      (_button_number button) now) inputs)).
Proof.
  cbv zeta. unfold handle_buttons_body.
  destruct (_is_held now button) as [button' held] eqn:Eheld.
  destruct held.
  - right; left.
    pose proof (is_held_pressed now button) as Hp. rewrite Eheld in Hp.
    destruct (Hp eq_refl) as [Hpressed Hholding].
    unfold _is_held in Eheld. rewrite Hpressed, Hholding in Eheld.
    cbn [negb andb] in Eheld.
    destruct (long_press_threshold button
              <=? timestamp_diff now (_press_start_time button));
      inversion Eheld; subst.
    cbn. auto.
  - assert (Hb : button' = button).
    { unfold _is_held in Eheld.
      destruct (negb (_is_holding button) && _is_pressed button
                && (long_press_threshold button
                    <=? timestamp_diff now (_press_start_time button)));
        inversion Eheld; reflexivity. }
    subst button'.
    unfold timeout_branch, _check_multi_press_timeout.
    destruct (0 <? _press_count button) eqn:Ecount; cbn [andb];
      [| left; cbn; auto].
    destruct (_is_pressed button) eqn:Epressed; cbn [negb];
      [left; cbn; auto |].
    destruct (_last_press_time button) as [last |]; [| left; cbn; auto].
    destruct (multi_press_interval button <? timestamp_diff now last);
      [| left; cbn; auto].
    apply Z.ltb_lt in Ecount.
    destruct (_press_count button =? 0) eqn:E0;
      [apply Z.eqb_eq in E0; lia |].
    right; right.
    cbn [_button_number set_press_count set_last_press_time fst snd].
    rewrite add_input_multi_press_name by lia.
    repeat split; auto.
Qed.

(** The button a poll leaves does not depend on the inputs collected so
    far. *)
Lemma handle_buttons_body_state (now : Z) (button : Button)
  (inputs : list ButtonInput) :
  fst (handle_buttons_body now button inputs) = poll_one now button.
Proof.
  unfold poll_one, handle_buttons_body.
  destruct (_is_held now button) as [button' held].
  destruct held; [reflexivity |].
  unfold timeout_branch.
  destruct (_check_multi_press_timeout now button') as [b r].
  destruct r as [[num |] | e]; try reflexivity.
  destruct (num =? 0); reflexivity.
Qed.

(** A poll raises on a button exactly when the timeout check meets a
    positive count on a released button without a [last_press_time]. *)
Lemma handle_buttons_body_raises (now : Z) (button : Button)
  (inputs : list ButtonInput) :
  is_ok (snd (handle_buttons_body now button inputs)) = false
  <-> 0 < _press_count button /\ _is_pressed button = false /\
      _last_press_time button = None.
Proof.
  unfold handle_buttons_body, _is_held.
  destruct (_is_pressed button) eqn:Ep.
  - destruct (negb (_is_holding button) && true
              && (long_press_threshold button
                  <=? timestamp_diff now (_press_start_time button))).
    + rewrite add_input_hold. cbn.
      split; [discriminate | intros (_ & H & _); discriminate].
    + unfold timeout_branch, _check_multi_press_timeout. rewrite Ep.
      rewrite andb_false_r. cbn.
      split; [discriminate | intros (_ & H & _); discriminate].
  - rewrite andb_false_r. cbn [andb].
    unfold timeout_branch, _check_multi_press_timeout. rewrite Ep.
    cbn [negb]. rewrite andb_true_r.
    destruct (0 <? _press_count button) eqn:Ec;
      [apply Z.ltb_lt in Ec | apply Z.ltb_ge in Ec].
    + destruct (_last_press_time button) as [last |] eqn:El.
      * destruct (multi_press_interval button <? timestamp_diff now last).
        -- destruct (_press_count button =? 0) eqn:E0;
             [apply Z.eqb_eq in E0; lia |].
           cbn [_button_number set_press_count set_last_press_time snd].
           rewrite add_input_multi_press_name by lia. cbn.
           split; [discriminate | intros (_ & _ & H); discriminate].
        -- cbn. split; [discriminate | intros (_ & _ & H); discriminate].
      * cbn. split; auto.
    + cbn. split; [discriminate | intros (H & _); lia].
Qed.

Lemma set_add_cases (x : ButtonInput) (s : list ButtonInput) :
  set_add x s = s \/ set_add x s = (s ++ [x])%list.
Proof.
  induction s as [| y s IH]; cbn.
  - right. reflexivity.
  - destruct (ButtonInput_eq y x); [left; reflexivity |].
    destruct IH as [-> | ->]; [left | right]; reflexivity.
Qed.

Lemma poll_one_cases (now : Z) (button : Button) :
  poll_one now button = button \/
  poll_one now button = set_is_holding true button \/
  poll_one now button = clear_run button.
Proof.
  unfold poll_one.
  destruct (handle_buttons_body_cases now button [])
    as [[H _] | [[H _] | [H _]]]; auto.
Qed.

Lemma poll_one_pending_ok (now : Z) (button : Button) :
  run_pending_ok button -> run_pending_ok (poll_one now button).
Proof.
  intros (Hmax & Hcount & Hlast).
  destruct (poll_one_cases now button) as [-> | [-> | ->]];
    unfold run_pending_ok; cbn; repeat split; auto; try lia.
Qed.

Lemma pending_ok_not_missing (button : Button) :
  run_pending_ok button -> ~ missing_last_press_time button.
Proof.
  intros (_ & _ & Hlast) (Hcount & _ & Hnone). exact (Hlast Hcount Hnone).
Qed.

(** Over buttons that all have what the timeout check needs, the loop polls
    every button and only appends inputs, at most one for each button. *)
Lemma handle_buttons_loop_ok (now : Z) (buttons : list Button) :
  forall inputs : list ButtonInput,
    Forall (fun b => ~ missing_last_press_time b) buttons ->
    exists new : list ButtonInput,
      handle_buttons_loop now buttons inputs
      = (map (poll_one now) buttons, Ok (inputs ++ new)%list) /\
      (List.length new <= List.length buttons)%nat /\
      Forall (reported_at now buttons) new.
Proof.
  induction buttons as [| button rest IH]; intros inputs Hall.
  - exists []. cbn. rewrite app_nil_r. repeat split; auto.
  - inversion Hall as [| ? ? Hhead Hrest]; subst.
    cbn [handle_buttons_loop map].
    pose proof (handle_buttons_body_state now button inputs) as Hstate.
    pose proof (handle_buttons_body_raises now button inputs) as Hraise.
    pose proof (handle_buttons_body_cases now button inputs) as Hcases.
    destruct (handle_buttons_body now button inputs) as [button' r].
    cbn [fst snd] in *. subst button'.
    assert (Hweak : forall new,
               Forall (reported_at now rest) new ->
               Forall (reported_at now (button :: rest)) new).
    { intros new Hnew. eapply Forall_impl; [| exact Hnew].
      intros i (Ht & b & Hin & Hb). split; [exact Ht |].
      exists b. split; [right; exact Hin | exact Hb]. }
    assert (Hstep : forall x,
               timestamp x = now -> button_number x = _button_number button ->
               exists new : list ButtonInput,
                 (let '(rest0, r0) :=
                    handle_buttons_loop now rest (set_add x inputs) in
                  (poll_one now button :: rest0, r0))
                 = (poll_one now button :: map (poll_one now) rest,
                    Ok (inputs ++ new)%list) /\
                 (List.length new <= S (List.length rest))%nat /\
                 Forall (reported_at now (button :: rest)) new).
    { intros x Ht Hn.
      destruct (IH (set_add x inputs) Hrest) as (new & Hloop & Hlen & Hnew).
      rewrite Hloop.
      destruct (set_add_cases x inputs) as [-> | ->].
      - exists new. split; [reflexivity |]. split; [lia | auto].
      - exists (x :: new). rewrite <- app_assoc. split; [reflexivity |].
        split; [cbn; lia |].
        constructor; [| auto].
        split; [exact Ht |]. exists button. split; [left; reflexivity | exact Hn]. }
    destruct Hcases as [[_ [Hr | Hr]] | [(_ & _ & Hr) | (_ & _ & _ & Hr)]].
    + subst r.
      destruct (IH inputs Hrest) as (new & Hloop & Hlen & Hnew).
      rewrite Hloop. exists new.
      split; [reflexivity |]. split; [cbn; lia | auto].
    + subst r. cbn in Hraise. destruct Hraise as [Hraise _].
      destruct (Hhead (Hraise eq_refl)).
    + subst r.
      apply (Hstep (mkInput "HOLD" (_button_number button) now));
        reflexivity.
    + subst r.
      apply (Hstep (mkInput (multi_press_action (_press_count button))
                      (_button_number button) now)); reflexivity.
Qed.



(** X10: [_handle_buttons] raises exactly when some button has a positive count,
    is released and has no [last_press_time]: the timeout check then takes
    the difference of a tick and [None]. *)
Theorem handle_buttons_raises_iff (now : Z) (buttons : list Button) :
  is_ok (snd (_handle_buttons now buttons)) = false
  <-> Exists missing_last_press_time buttons.
Proof.
  unfold _handle_buttons. generalize (@nil ButtonInput) as inputs.
  induction buttons as [| button rest IH]; intros inputs.
  - cbn. split; [discriminate | intros H; inversion H].
  - cbn [handle_buttons_loop].
    pose proof (handle_buttons_body_raises now button inputs) as Hraise.
    destruct (handle_buttons_body now button inputs) as [button' r].
    cbn [snd] in Hraise. destruct r as [inputs' | e].
    + specialize (IH inputs').
      destruct (handle_buttons_loop now rest inputs') as [rest' r'].
      cbn [snd] in *. rewrite IH. split.
      * intros H. right. exact H.
      * intros H. inversion H as [? ? Hbad | ? ? Hlater]; subst;
          [| exact Hlater].
        apply Hraise in Hbad. discriminate.
    + cbn. split; [| reflexivity].
      intros _. left. apply Hraise. reflexivity.
Qed.

(** A button that has just been polled without an exception is left alone
    by another poll at the same tick. *)
Lemma handle_buttons_body_again (now : Z) (button button' : Button)
  (inputs inputs' : list ButtonInput) :
  handle_buttons_body now button inputs = (button', Ok inputs') ->
  forall again : list ButtonInput,
    handle_buttons_body now button' again = (button', Ok again).
Proof.
  unfold handle_buttons_body, _is_held, timeout_branch,
    _check_multi_press_timeout.
  destruct (_is_holding button) eqn:Eh, (_is_pressed button) eqn:Ep;
    cbn [negb andb];
    try destruct (long_press_threshold button
                  <=? timestamp_diff now (_press_start_time button)) eqn:Et;
    cbn [negb andb]; rewrite ?Eh, ?Ep; cbn [negb andb];
    try rewrite andb_false_r;
    try (destruct (0 <? _press_count button) eqn:Ec; cbn [negb andb]);
    try (destruct (_last_press_time button) as [last |] eqn:El);
    try (destruct (multi_press_interval button <? timestamp_diff now last)
           eqn:Ei);
    try (destruct (_press_count button =? 0) eqn:E0);
    intros H again; inversion H; subst; clear H;
    repeat (progress
              (cbn [_is_holding _is_pressed _press_count _last_press_time
                      _press_start_time long_press_threshold
                      multi_press_interval set_is_holding set_press_count
                      set_last_press_time negb andb];
               rewrite ?Eh, ?Ep, ?Et, ?Ec, ?El, ?Ei, ?E0, ?andb_false_r));
    reflexivity.
Qed.

Lemma handle_buttons_loop_again (now : Z) (buttons : list Button) :
  forall (buttons' : list Button) (inputs inputs' : list ButtonInput),
    handle_buttons_loop now buttons inputs = (buttons', Ok inputs') ->
    forall again : list ButtonInput,
      handle_buttons_loop now buttons' again = (buttons', Ok again).
Proof.
  induction buttons as [| button rest IH]; intros buttons' inputs inputs' H again.
  - cbn in H. inversion H; subst. reflexivity.
  - cbn [handle_buttons_loop] in H.
    destruct (handle_buttons_body now button inputs) as [b r] eqn:Eb.
    destruct r as [mid | e]; [| discriminate].
    destruct (handle_buttons_loop now rest mid) as [rest' r'] eqn:Er.
    inversion H; subst; clear H.
    cbn [handle_buttons_loop].
    rewrite (handle_buttons_body_again now button b inputs mid Eb again).
    rewrite (IH rest' mid inputs' Er again). reflexivity.
Qed.

(** X11: polling again at the same tick reports nothing and changes no button:
    whatever a poll reported is not reported twice. *)
Theorem handle_buttons_twice (now : Z) (buttons buttons' : list Button)
  (inputs : list ButtonInput) :
  _handle_buttons now buttons = (buttons', Ok inputs) ->
  _handle_buttons now buttons' = (buttons', Ok []).
Proof.
  unfold _handle_buttons. intros H.
  apply (handle_buttons_loop_again now buttons buttons' [] inputs H).
Qed.

Lemma handle_buttons_twice_witness :
  _handle_buttons 201 [after_short_press]
  = ([clear_run after_short_press], Ok [mkInput "SHORT_PRESS" 0 201]) /\
  _handle_buttons 201 [clear_run after_short_press]
  = ([clear_run after_short_press], Ok []).
Proof.
  assert (H : _handle_buttons 201 [after_short_press]
              = ([clear_run after_short_press],
                 Ok [mkInput "SHORT_PRESS" 0 201])) by reflexivity.
  split; [exact H |].
  apply (handle_buttons_twice 201 _ _ _ H).
Defined.

(** ** The set of inputs *)

Lemma ButtonInput_eq_sym (x y : ButtonInput) :
  ButtonInput_eq x y = ButtonInput_eq y x.
Proof.
  unfold ButtonInput_eq. rewrite String.eqb_sym, Z.eqb_sym. reflexivity.
Qed.

Lemma ButtonInput_eq_trans (x y z : ButtonInput) :
  ButtonInput_eq x y = true -> ButtonInput_eq y z = true ->
  ButtonInput_eq x z = true.
Proof.
  unfold ButtonInput_eq. rewrite !andb_true_iff, !String.eqb_eq, !Z.eqb_eq.
  intros [-> ->] [-> ->]. auto.
Qed.

Lemma set_add_present (x : ButtonInput) (s : list ButtonInput) :
  existsb (fun y => ButtonInput_eq y x) s = true -> set_add x s = s.
Proof.
  induction s as [| y s IH]; cbn; [discriminate |].
  destruct (ButtonInput_eq y x); cbn; [reflexivity |].
  intros H. rewrite IH by exact H. reflexivity.
Qed.

Lemma set_add_absent (x : ButtonInput) (s : list ButtonInput) :
  existsb (fun y => ButtonInput_eq y x) s = false ->
  set_add x s = (s ++ [x])%list.
Proof.
  induction s as [| y s IH]; cbn; [reflexivity |].
  destruct (ButtonInput_eq y x); cbn; [discriminate |].
  intros H. rewrite IH by exact H. reflexivity.
Qed.

Lemma distinct_inputs_snoc (x : ButtonInput) (s : list ButtonInput) :
  distinct_inputs s = true ->
  existsb (fun y => ButtonInput_eq y x) s = false ->
  distinct_inputs (s ++ [x]) = true.
Proof.
  induction s as [| y s IH]; cbn; [reflexivity |].
  rewrite !andb_true_iff, !negb_true_iff, orb_false_iff.
  intros [Hy Hs] [Hyx Hx]. split; [| apply IH; assumption].
  rewrite existsb_app, Hy. cbn.
  rewrite ButtonInput_eq_sym, Hyx. reflexivity.
Qed.

Lemma set_add_distinct (x : ButtonInput) (s : list ButtonInput) :
  distinct_inputs s = true -> distinct_inputs (set_add x s) = true.
Proof.
  intros Hs.
  destruct (existsb (fun y => ButtonInput_eq y x) s) eqn:E.
  - rewrite set_add_present by exact E. exact Hs.
  - rewrite set_add_absent by exact E. apply distinct_inputs_snoc; assumption.
Qed.

Lemma set_add_member (x : ButtonInput) (s : list ButtonInput) :
  existsb (fun y => ButtonInput_eq y x) (set_add x s) = true.
Proof.
  destruct (existsb (fun y => ButtonInput_eq y x) s) eqn:E.
  - rewrite set_add_present by exact E. exact E.
  - rewrite set_add_absent by exact E. rewrite existsb_app. cbn.
    unfold ButtonInput_eq at 2. rewrite String.eqb_refl, Z.eqb_refl.
    apply orb_true_r.
Qed.

(** [set.add] on the inputs: the set stays free of duplicates under
    [__eq__] and then holds an input equal to the added one; an input equal
    to one already present is dropped, so the set keeps the timestamp it had
    first; any other input goes to the end. *)
Lemma set_add_keeps_first (x : ButtonInput) (s : list ButtonInput) :
  (distinct_inputs s = true -> distinct_inputs (set_add x s) = true) /\
  existsb (fun y => ButtonInput_eq y x) (set_add x s) = true /\
  (forall y, In y s -> ButtonInput_eq y x = true -> set_add x s = s) /\
  ((forall y, In y s -> ButtonInput_eq y x = false) ->
   set_add x s = (s ++ [x])%list).
Proof.
  split; [apply set_add_distinct |]. split; [apply set_add_member |].
  split.
  - intros y Hin Heq. apply set_add_present.
    apply existsb_exists. exists y. auto.
  - intros Hnone. apply set_add_absent.
    destruct (existsb (fun y => ButtonInput_eq y x) s) eqn:E; [| reflexivity].
    apply existsb_exists in E. destruct E as (y & Hin & Heq).
    rewrite (Hnone y Hin) in Heq. discriminate.
Qed.

(** ** A whole poll *)

Lemma handle_buttons_loop_distinct (now : Z) (buttons : list Button) :
  forall (inputs : list ButtonInput) (buttons' : list Button)
         (out : list ButtonInput),
    handle_buttons_loop now buttons inputs = (buttons', Ok out) ->
    distinct_inputs inputs = true -> distinct_inputs out = true.
Proof.
  induction buttons as [| button rest IH]; intros inputs buttons' out H Hd.
  - cbn in H. inversion H; subst. exact Hd.
  - cbn [handle_buttons_loop] in H.
    pose proof (handle_buttons_body_cases now button inputs) as Hcases.
    destruct (handle_buttons_body now button inputs) as [b r].
    cbn [fst snd] in Hcases.
    destruct r as [mid | e]; [| discriminate].
    destruct (handle_buttons_loop now rest mid) as [rest' r'] eqn:Er.
    inversion H; subst; clear H.
    apply (IH mid rest' out Er).
    destruct Hcases as [[_ [Hr | Hr]] | [(_ & _ & Hr) | (_ & _ & _ & Hr)]];
      try discriminate; injection Hr as ->;
      [exact Hd | apply set_add_distinct; exact Hd
      | apply set_add_distinct; exact Hd].
Qed.

Lemma set_update_distinct (other : list ButtonInput) :
  forall s : list ButtonInput,
    distinct_inputs s = true -> distinct_inputs (set_update s other) = true.
Proof.
  unfold set_update.
  induction other as [| x other IH]; intros s Hs; cbn; [exact Hs |].
  apply IH. apply set_add_distinct. exact Hs.
Qed.

Lemma drain_distinct (fuel : nat) :
  forall (arrivals : nat -> list Event.t) (k : nat) (buttons : list Button)
         (queue : EventQueue) (inputs : list ButtonInput) (c : nat) (p : Poll)
         (out : list ButtonInput),
    drain fuel arrivals k buttons queue inputs c = Some p ->
    poll_result p = Ok out ->
    distinct_inputs inputs = true -> distinct_inputs out = true.
Proof.
  induction fuel as [| fuel IH];
    intros arrivals k buttons queue inputs c p out H Hr Hd; [discriminate |].
  destruct queue as [| event queue].
  - rewrite drain_empty in H. injection H as <-. cbn in Hr.
    injection Hr as <-. exact Hd.
  - rewrite drain_cons in H.
    destruct (_handle_event buttons event) as [buttons' [[input_ |] | e]].
    + apply (IH _ _ _ _ _ _ _ _ H Hr). apply set_add_distinct. exact Hd.
    + apply (IH _ _ _ _ _ _ _ _ H Hr Hd).
    + injection H as <-. discriminate.
Qed.

(** X12: the set that [update] returns never holds two inputs with the same
    action and the same button number: of several such inputs found in one
    poll, by the checks or in the queue, one is returned. *)
Theorem update_result_distinct (fuel : nat) (arrivals : nat -> list Event.t)
  (now : Z) (buttons : list Button) (queue : EventQueue) (p : Poll)
  (inputs : list ButtonInput) :
  update fuel arrivals now buttons queue = Some p ->
  poll_result p = Ok inputs ->
  distinct_inputs inputs = true.
Proof.
  unfold update, _handle_buttons. intros H Hr.
  destruct (handle_buttons_loop now buttons []) as [buttons' [found | e]]
    eqn:Eloop.
  - apply (drain_distinct _ _ _ _ _ _ _ _ _ H Hr).
    apply set_update_distinct. reflexivity.
  - injection H as <-. discriminate.
Qed.

Lemma update_result_distinct_witness :
  update 5 no_arrivals 20
    [mkButton 0 false 1000 2 175 None 0 0 false false]
    [Event.make 0 true 0; Event.make 0 false 5;
     Event.make 0 true 10; Event.make 0 false 15]
  = Some (mkPoll [mkButton 0 false 1000 2 175 None 0 10 false false] []
            (Ok [mkInput "SHORT_PRESS" 0 5]) 4) /\
  distinct_inputs [mkInput "SHORT_PRESS" 0 5] = true.
Proof.
  assert (H : update 5 no_arrivals 20
                [mkButton 0 false 1000 2 175 None 0 0 false false]
                [Event.make 0 true 0; Event.make 0 false 5;
                 Event.make 0 true 10; Event.make 0 false 15]
              = Some (mkPoll
                        [mkButton 0 false 1000 2 175 None 0 10 false false] []
                        (Ok [mkInput "SHORT_PRESS" 0 5]) 4))
    by reflexivity.
  split; [exact H |].
  apply (update_result_distinct _ _ _ _ _ _ _ H eq_refl).
Defined.

Lemma handle_event_on_pending_ok (event : Event.t) (button : Button) :
  run_pending_ok button -> run_pending_ok (fst (handle_event_on event button)).
Proof.
  intros H. destruct event as [key pressed time]. destruct pressed.
  - apply (run_pending_ok_step (PressEvent key time) button H).
  - apply (run_pending_ok_step (ReleaseEvent key time) button H).
Qed.

Lemma handle_event_on_ok (event : Event.t) (button : Button) :
  1 <= max_multi_press button ->
  is_ok (snd (handle_event_on event button)) = true.
Proof.
  intros Hmax. unfold handle_event_on, release_transition.
  cbn [max_multi_press set_is_pressed].
  rewrite ButtonInput_init_multi_press_name by exact Hmax.
  destruct (Event.pressed event); [reflexivity |].
  destruct (_ <? _); [| reflexivity].
  destruct (negb _); [reflexivity |].
  destruct (_ =? _); reflexivity.
Qed.

Lemma Forall_list_set {A : Type} (P : A -> Prop) (k : nat) (x : A)
  (l : list A) :
  Forall P l -> P x -> Forall P (list_set k x l).
Proof.
  intros Hl Hx. revert k.
  induction Hl as [| y l Hy Hl IH]; intros [| k]; cbn; auto.
Qed.

(** An event for one of the buttons, on buttons that satisfy the invariant,
    is handled without an exception and leaves such buttons. *)
Lemma handle_event_safe (buttons : list Button) (event : Event.t) :
  Forall run_pending_ok buttons ->
  key_in_range buttons event ->
  is_ok (snd (_handle_event buttons event)) = true /\
  Forall run_pending_ok (fst (_handle_event buttons event)) /\
  List.length (fst (_handle_event buttons event)) = List.length buttons.
Proof.
  intros Hall Hkey. unfold key_in_range in Hkey.
  destruct (nth_error buttons (Z.to_nat (Event.key_number event)))
    as [button |] eqn:En; [| apply nth_error_None in En; lia].
  rewrite (handle_event_at buttons event button Hkey En). cbn [fst snd].
  assert (Hb : run_pending_ok button).
  { rewrite Forall_forall in Hall. apply Hall.
    apply (nth_error_In _ _ En). }
  split; [apply handle_event_on_ok; apply Hb |].
  split; [| apply length_list_set].
  apply Forall_list_set; [exact Hall |].
  apply handle_event_on_pending_ok. exact Hb.
Qed.

Lemma drain_safe (fuel : nat) :
  forall (arrivals : nat -> list Event.t) (k : nat) (buttons : list Button)
         (queue : EventQueue) (inputs : list ButtonInput) (c : nat) (p : Poll)
         (n : nat),
    List.length buttons = n ->
    Forall run_pending_ok buttons ->
    Forall (fun e => 0 <= Event.key_number e < Z.of_nat n) queue ->
    (forall j, Forall (fun e => 0 <= Event.key_number e < Z.of_nat n)
                 (arrivals j)) ->
    drain fuel arrivals k buttons queue inputs c = Some p ->
    is_ok (poll_result p) = true /\
    Forall run_pending_ok (poll_buttons p) /\
    List.length (poll_buttons p) = n.
Proof.
  induction fuel as [| fuel IH];
    intros arrivals k buttons queue inputs c p n Hlen Hall Hq Harr H;
    [discriminate |].
  destruct queue as [| event queue].
  - rewrite drain_empty in H. injection H as <-. cbn. auto.
  - rewrite drain_cons in H.
    inversion Hq as [| ? ? Hevent Hrest]; subst.
    destruct (handle_event_safe buttons event Hall Hevent)
      as (Hok & Hall' & Hlen').
    destruct (_handle_event buttons event) as [buttons' r].
    cbn [fst snd] in *.
    assert (Hq' : Forall (fun e => 0 <= Event.key_number e
                                   < Z.of_nat (List.length buttons))
                    (queue ++ arrivals k)).
    { apply Forall_app. split; [exact Hrest | apply Harr]. }
    destruct r as [[input_ |] | e]; [| | discriminate].
    + apply (IH _ _ _ _ _ _ _ _ Hlen' Hall' Hq' Harr H).
    + apply (IH _ _ _ _ _ _ _ _ Hlen' Hall' Hq' Harr H).
Qed.

(** X13: a poll cannot raise on a handler whose buttons satisfy the invariant of
    a button when every event, queued or arriving, names one of the buttons:
    whenever [update] returns, it returns a set, and it leaves as many
    buttons, which satisfy the invariant again. *)
Theorem update_safe (fuel : nat) (arrivals : nat -> list Event.t) (now : Z)
  (buttons : list Button) (queue : EventQueue) (p : Poll) :
  Forall run_pending_ok buttons ->
  Forall (key_in_range buttons) queue ->
  (forall j, Forall (key_in_range buttons) (arrivals j)) ->
  update fuel arrivals now buttons queue = Some p ->
  is_ok (poll_result p) = true /\
  Forall run_pending_ok (poll_buttons p) /\
  List.length (poll_buttons p) = List.length buttons.
Proof.
  intros Hall Hq Harr H. unfold update in H.
  destruct (handle_buttons_loop_ok now buttons [])
    as (new & Hloop & _ & _).
  { eapply Forall_impl; [| exact Hall].
    intros b. apply pending_ok_not_missing. }
  unfold _handle_buttons in H. rewrite Hloop in H.
  apply (drain_safe _ _ _ _ _ _ _ _ (List.length buttons)) in H; auto.
  - apply length_map.
  - apply Forall_map. eapply Forall_impl; [| exact Hall].
    intros b. apply poll_one_pending_ok.
Qed.

Lemma update_safe_witness :
  Forall run_pending_ok [fresh_button] /\
  Forall (key_in_range [fresh_button]) [Event.make 0 true 0] /\
  (forall j, Forall (key_in_range [fresh_button]) (no_arrivals j)) /\
  update 2 no_arrivals 5 [fresh_button] [Event.make 0 true 0]
  = Some (mkPoll [mkButton 0 true 1000 2 175 (Some 0) 1 0 false true] []
            (Ok []) 1) /\
  Forall run_pending_ok [mkButton 0 true 1000 2 175 (Some 0) 1 0 false true].
Proof.
  assert (H1 : Forall run_pending_ok [fresh_button]).
  { constructor; [| constructor]. unfold run_pending_ok. cbn.
    repeat split; lia. }
  assert (H2 : Forall (key_in_range [fresh_button]) [Event.make 0 true 0]).
  { constructor; [| constructor]. unfold key_in_range. cbn. lia. }
  assert (H3 : forall j, Forall (key_in_range [fresh_button]) (no_arrivals j)).
  { intros j. constructor. }
  assert (H4 : update 2 no_arrivals 5 [fresh_button] [Event.make 0 true 0]
               = Some (mkPoll
                         [mkButton 0 true 1000 2 175 (Some 0) 1 0 false true]
                         [] (Ok []) 1)) by reflexivity.
  repeat split; try assumption.
  apply (update_safe _ _ _ _ _ _ H1 H2 H3 H4).
Defined.



(** ** Runs of presses *)

Lemma count_in_bounds_alternating (init b : Button) :
  count_in_bounds init -> alternating init b -> count_in_bounds b.
Proof.
  intros Hinit Halt.
  induction Halt as [| b key time _ IH Hp | b key time _ IH Hp
                     | b now _ IH | b now _ IH];
    [exact Hinit | | | |];
    destruct IH as (Hmax & Hpressed & Hreleased); unfold count_in_bounds.
  - specialize (Hreleased Hp).
    cbn [apply_op]. unfold handle_event_on, press_transition. cbn.
    destruct (_press_count b <? max_multi_press b); cbn;
      (split; [exact Hmax |]); (split; [intros _; lia | intros Hx; discriminate Hx]).
  - specialize (Hpressed Hp).
    cbn [apply_op]. unfold handle_event_on, release_transition.
    cbn [Event.pressed Event.timestamp Event.key_number _press_start_time
           set_is_pressed long_press_threshold enable_multi_press
           _press_count max_multi_press].
    rewrite ButtonInput_init_multi_press_name by exact Hmax.
    destruct (_ <? _);
      [destruct (enable_multi_press b); cbn [negb];
       [destruct (_press_count b =? max_multi_press b) eqn:Ec;
        [| apply Z.eqb_neq in Ec] |] |];
      cbn; (split; [exact Hmax |]);
      (split; [intros Hx; discriminate Hx | intros _; lia]).
  - cbn [apply_op]. unfold _is_held.
    destruct (negb (_is_holding b) && _is_pressed b
              && (long_press_threshold b
                  <=? timestamp_diff now (_press_start_time b)));
      cbn; auto.
  - cbn [apply_op]. unfold _check_multi_press_timeout.
    destruct (_is_pressed b) eqn:Ep.
    + rewrite andb_false_r. cbn. rewrite Ep. auto.
    + destruct ((0 <? _press_count b) && negb false);
        [| cbn; rewrite Ep; auto].
      destruct (_last_press_time b) as [last |]; [| cbn; rewrite Ep; auto].
      destruct (multi_press_interval b <? timestamp_diff now last);
        [| cbn; rewrite Ep; auto].
      cbn. rewrite Ep.
      split; [exact Hmax |].
      split; [intros Hx; discriminate Hx | intros _; lia].
Qed.

(** X14: under alternating events, from a button constructed with
    [max_multi_press >= 1], [press_count] never passes [max_multi_press]:
    a pressed button has counted between 1 and [max_multi_press] presses and
    a released one fewer than [max_multi_press].  So every press finds the
    count below the cap and moves [last_press_time] to its own tick. *)
Theorem alternating_press_count_bounded (number : Z)
  (config : ButtonInitConfig) (init b : Button) :
  1 <= cfg_max_multi_press config ->
  Button_init number config = Ok init ->
  alternating init b ->
  (_is_pressed b = true -> 1 <= _press_count b <= max_multi_press b) /\
  (_is_pressed b = false -> 0 <= _press_count b < max_multi_press b) /\
  (_is_pressed b = false ->
   forall key time,
     _last_press_time (apply_op (PressEvent key time) b) = Some time).
Proof.
  intros Hmax Hinit Halt.
  assert (Hb : count_in_bounds b).
  { apply (count_in_bounds_alternating init); [| exact Halt].
    unfold Button_init in Hinit.
    destruct (number <? 0); [discriminate |].
    injection Hinit as <-. unfold count_in_bounds. cbn.
    split; [exact Hmax |].
    split; [intros Hx; discriminate Hx | intros _; lia]. }
  destruct Hb as (_ & Hpressed & Hreleased).
  split; [exact Hpressed |]. split; [exact Hreleased |].
  intros Hp key time. specialize (Hreleased Hp).
  cbn [apply_op]. unfold handle_event_on, press_transition. cbn.
  destruct (_press_count b <? max_multi_press b) eqn:E; [reflexivity |].
  apply Z.ltb_ge in E. lia.
Qed.

Lemma alternating_press_count_bounded_witness :
  1 <= cfg_max_multi_press default_config /\
  Button_init 0 default_config = Ok fresh_button /\
  alternating fresh_button
    (apply_op (PressEvent 0 300)
       (apply_op (ReleaseEvent 0 150)
          (apply_op (PressEvent 0 0) fresh_button))) /\
  1 <= _press_count
         (apply_op (PressEvent 0 300)
            (apply_op (ReleaseEvent 0 150)
               (apply_op (PressEvent 0 0) fresh_button)))
    <= max_multi_press
         (apply_op (PressEvent 0 300)
            (apply_op (ReleaseEvent 0 150)
               (apply_op (PressEvent 0 0) fresh_button))).
Proof.
  assert (Halt : alternating fresh_button
                   (apply_op (PressEvent 0 300)
                      (apply_op (ReleaseEvent 0 150)
                         (apply_op (PressEvent 0 0) fresh_button)))).
  { apply alternating_press; [| reflexivity].
    apply alternating_release; [| reflexivity].
    apply alternating_press; [| reflexivity].
    apply alternating_init. }
  assert (Hmax : 1 <= cfg_max_multi_press default_config) by (cbn; lia).
  split; [exact Hmax |]. split; [reflexivity |]. split; [exact Halt |].
  apply (alternating_press_count_bounded 0 default_config fresh_button _
           Hmax eq_refl Halt).
  reflexivity.
Defined.

(** A series of short presses that stays below the cap only counts: every
    release is left pending, whatever the ticks of the presses are. *)
Lemma press_series_counts (key : Z) (presses : list (Z * Z)) :
  forall b : Button,
    enable_multi_press b = true ->
    _press_count b + Z.of_nat (List.length presses) < max_multi_press b ->
    Forall (short_press b) presses ->
    let b' := run (press_series key presses) b in
    _press_count b' = _press_count b + Z.of_nat (List.length presses) /\
    same_setup b b'.
Proof.
  induction presses as [| [pressed_at released_at] rest IH];
    intros b Hen Hcount Hshort.
  - cbn. split; [lia | repeat split].
  - inversion Hshort as [| ? ? Hfirst Hrest]; subst.
    unfold short_press in Hfirst. cbn [fst snd] in Hfirst.
    cbn [press_series run fold_left List.length] in *.
    set (b1 := apply_op (ReleaseEvent key released_at)
                 (apply_op (PressEvent key pressed_at) b)).
    assert (H1 : _press_count b1 = _press_count b + 1 /\ same_setup b b1).
    { subst b1. cbn [apply_op]. unfold handle_event_on.
      cbn [Event.pressed]. unfold release_transition, press_transition.
      cbn [Event.timestamp Event.key_number fst].
      assert (Elt : (_press_count b <? max_multi_press b) = true)
        by (apply Z.ltb_lt; lia).
      cbn [_press_start_time set_is_pressed set_press_start_time
             set_last_press_time set_press_count long_press_threshold
             enable_multi_press _press_count max_multi_press].
      rewrite Elt.
      cbn [_press_start_time set_is_pressed set_press_start_time
             set_last_press_time set_press_count long_press_threshold
             enable_multi_press _press_count max_multi_press].
      apply Z.ltb_lt in Hfirst. rewrite Hfirst, Hen. cbn [negb].
      destruct (_press_count b + 1 =? max_multi_press b) eqn:Eeq;
        [apply Z.eqb_eq in Eeq; lia |].
      cbn. split; [reflexivity | repeat split]. }
    destruct H1 as [Hc1 Hs1].
    destruct Hs1 as (Hn & He & Ht & Hm & Hi).
    destruct (IH b1) as [Hc' Hs'].
    + rewrite He. exact Hen.
    + rewrite Hc1, Hm. lia.
    + eapply Forall_impl; [| exact Hrest].
      intros p Hp. unfold short_press in *. rewrite Ht. exact Hp.
    + fold (run (press_series key rest) b1).
      split; [rewrite Hc', Hc1; lia |].
      destruct Hs' as (Hn' & He' & Ht' & Hm' & Hi').
      repeat split; congruence.
Qed.

(** X15: [max_multi_press] short presses in a row complete a multi-press at the
    release of the last one, and the releases before it report nothing.
    The ticks of the presses play no part: without a poll in between, the
    presses may lie any distance apart. *)
Theorem press_series_completes (key : Z) (b : Button)
  (presses : list (Z * Z)) (final : Z * Z) :
  enable_multi_press b = true ->
  _press_count b = 0 ->
  Z.of_nat (List.length presses) + 1 = max_multi_press b ->
  Forall (short_press b) presses ->
  short_press b final ->
  let before := run (press_series key presses) b in
  let pressed := apply_op (PressEvent key (fst final)) before in
  _press_count before = Z.of_nat (List.length presses) /\
  snd (handle_event_on (Event.make key false (snd final)) pressed)
  = Ok (Some (mkInput (multi_press_action (max_multi_press b)) key
                (snd final))) /\
  _press_count (apply_op (ReleaseEvent key (snd final)) pressed) = 0 /\
  _last_press_time (apply_op (ReleaseEvent key (snd final)) pressed) = None.
Proof.
  intros Hen Hzero Hlen Hshort Hfinal.
  destruct (press_series_counts key presses b Hen ltac:(lia) Hshort)
    as [Hcount (Hn & He & Ht & Hm & Hi)].
  cbv zeta.
  set (before := run (press_series key presses) b) in *.
  split; [lia |].
  unfold short_press in Hfinal.
  cbn [apply_op]. unfold handle_event_on.
  cbn [Event.pressed]. unfold release_transition, press_transition.
  cbn [Event.timestamp Event.key_number fst].
  assert (Elt : (_press_count before <? max_multi_press before) = true)
    by (apply Z.ltb_lt; lia).
  cbn [_press_start_time set_is_pressed set_press_start_time
         set_last_press_time set_press_count long_press_threshold
         enable_multi_press _press_count max_multi_press].
  rewrite Elt.
  cbn [_press_start_time set_is_pressed set_press_start_time
         set_last_press_time set_press_count long_press_threshold
         enable_multi_press _press_count max_multi_press].
  rewrite Ht, He, Hen. apply Z.ltb_lt in Hfinal. rewrite Hfinal.
  cbn [negb].
  destruct (_press_count before + 1 =? max_multi_press before) eqn:Eeq;
    [| apply Z.eqb_neq in Eeq; lia].
  rewrite ButtonInput_init_multi_press_name by lia.
  rewrite Hm. cbn. repeat split; reflexivity.
Qed.

Lemma press_series_completes_witness :
  enable_multi_press fresh_button = true /\
  _press_count fresh_button = 0 /\
  Z.of_nat (List.length [(0, 150)]) + 1 = max_multi_press fresh_button /\
  Forall (short_press fresh_button) [(0, 150)] /\
  short_press fresh_button (100000, 100100) /\
  snd (handle_event_on (Event.make 0 false 100100)
         (apply_op (PressEvent 0 100000)
            (run (press_series 0 [(0, 150)]) fresh_button)))
  = Ok (Some (mkInput "2_MULTI_PRESS" 0 100100)).
Proof.
  assert (H1 : Forall (short_press fresh_button) [(0, 150)]).
  { constructor; [| constructor]. unfold short_press. vm_compute. reflexivity. }
  assert (H2 : short_press fresh_button (100000, 100100)).
  { unfold short_press. vm_compute. reflexivity. }
  split; [reflexivity |]. split; [reflexivity |]. split; [reflexivity |].
  split; [exact H1 |]. split; [exact H2 |].
  apply (press_series_completes 0 fresh_button [(0, 150)] (100000, 100100)
           eq_refl eq_refl eq_refl H1 H2).
Defined.

(** ** After a report *)

Lemma idle_poll_silent (now : Z) (b : Button) (inputs : list ButtonInput) :
  _is_pressed b = false -> _press_count b = 0 ->
  handle_buttons_body now b inputs = (b, Ok inputs).
Proof.
  intros Hp Hc. unfold handle_buttons_body, _is_held. rewrite Hp.
  rewrite andb_false_r. cbn [andb].
  apply timeout_branch_idle. left. lia.
Qed.

(** X16: once a release has reported an input, the polls that follow it report
    nothing for the button and leave it as it is, until it is pressed
    again: one press is not reported a second time by a timeout. *)
Theorem release_report_silences_polls (event : Event.t) (button : Button)
  (input_ : ButtonInput) :
  snd (handle_event_on event button) = Ok (Some input_) ->
  forall (now : Z) (inputs : list ButtonInput),
    handle_buttons_body now (fst (handle_event_on event button)) inputs
    = (fst (handle_event_on event button), Ok inputs).
Proof.
  unfold handle_event_on, release_transition.
  destruct (Event.pressed event); [discriminate |].
  destruct (_ <? _);
    [destruct (negb _); [| destruct (_ =? _)] |];
    try destruct (ButtonInput_init _ _ _);
    cbn [fst snd]; try discriminate;
    intros _ now inputs; apply idle_poll_silent; reflexivity.
Qed.

Lemma release_report_silences_polls_witness :
  snd (handle_event_on (Event.make 0 false 1500)
         (mkButton 0 true 1000 2 175 (Some 0) 1 0 true true))
  = Ok (Some (mkInput "LONG_PRESS" 0 1500)) /\
  handle_buttons_body 5000
    (fst (handle_event_on (Event.make 0 false 1500)
            (mkButton 0 true 1000 2 175 (Some 0) 1 0 true true))) []
  = (mkButton 0 true 1000 2 175 None 0 0 false false, Ok []).
Proof.
  split; [reflexivity |].
  apply (release_report_silences_polls (Event.make 0 false 1500)
           (mkButton 0 true 1000 2 175 (Some 0) 1 0 true true)
           (mkInput "LONG_PRESS" 0 1500) eq_refl 5000 []).
Defined.

(** ** Thresholds across the wrap of the counter *)

Lemma timestamp_diff_mod_l (a b : Z) :
  timestamp_diff (a mod _TICKS_PERIOD) b = timestamp_diff a b.
Proof.
  rewrite !timestamp_diff_spec. change _TICKS_PERIOD with (2 ^ 29).
  apply Zminus_mod_idemp_l.
Qed.

Lemma timestamp_diff_small (a b : Z) :
  0 <= a - b < _TICKS_PERIOD -> timestamp_diff a b = a - b.
Proof.
  intros H. rewrite timestamp_diff_spec. apply Z.mod_small. exact H.
Qed.

Lemma multi_press_action_not_long (n : Z) :
  1 <= n -> multi_press_action n <> "LONG_PRESS"%string.
Proof.
  intros Hn H. unfold multi_press_action in H.
  destruct (n =? 1); [discriminate |].
  apply String.eqb_eq in H.
  rewrite multi_press_name_not_literal in H by auto. discriminate.
Qed.

(** X17: the threshold is compared with the ticks that really elapsed since the
    press, also when the counter wrapped in between: [d < P] ticks after
    the press the hold check fires exactly when the button is pressed, not
    yet holding and [d] has reached the threshold, and a release is
    reported as a long press exactly when [d] has reached the threshold. *)
Theorem thresholds_across_wrap (button : Button) (d : Z) :
  0 <= d < _TICKS_PERIOD ->
  1 <= max_multi_press button ->
  let time := (_press_start_time button + d) mod _TICKS_PERIOD in
  (snd (_is_held time button) = true
   <-> _is_holding button = false /\ _is_pressed button = true /\
       long_press_threshold button <= d) /\
  (forall key,
      snd (handle_event_on (Event.make key false time) button)
      = Ok (Some (mkInput "LONG_PRESS" key time))
      <-> long_press_threshold button <= d).
Proof.
  intros Hd Hmax. cbv zeta.
  assert (Hdiff : timestamp_diff
                    ((_press_start_time button + d) mod _TICKS_PERIOD)
                    (_press_start_time button) = d).
  { rewrite timestamp_diff_mod_l, timestamp_diff_small; lia. }
  split.
  - unfold _is_held. rewrite Hdiff.
    destruct (_is_holding button), (_is_pressed button); cbn;
      try (split; [discriminate | intros (H1 & H2 & _); discriminate]).
    destruct (long_press_threshold button <=? d) eqn:E;
      [apply Z.leb_le in E | apply Z.leb_gt in E]; cbn.
    + split; auto.
    + split; [discriminate | intros (_ & _ & H); lia].
  - intros key. unfold handle_event_on, release_transition.
    cbn [Event.pressed Event.timestamp Event.key_number _press_start_time
           set_is_pressed long_press_threshold enable_multi_press
           _press_count max_multi_press].
    rewrite Hdiff, ButtonInput_init_multi_press_name by exact Hmax.
    destruct (d <? long_press_threshold button) eqn:E;
      [apply Z.ltb_lt in E | apply Z.ltb_ge in E].
    + destruct (enable_multi_press button); cbn [negb].
      * destruct (_press_count button =? max_multi_press button); cbn.
        -- split; [| lia]. intros [= H].
           apply multi_press_action_not_long in H; [contradiction | exact Hmax].
        -- split; [discriminate | lia].
      * cbn. split; [discriminate | lia].
    + cbn. split; [intros _; exact E | reflexivity].
Qed.

Lemma thresholds_across_wrap_witness :
  0 <= 1000 < _TICKS_PERIOD /\
  1 <= max_multi_press
         (mkButton 0 true 1000 2 175 (Some 536870900) 1 536870900 false true) /\
  (_press_start_time
     (mkButton 0 true 1000 2 175 (Some 536870900) 1 536870900 false true)
   + 1000) mod _TICKS_PERIOD = 988 /\
  snd (_is_held 988
         (mkButton 0 true 1000 2 175 (Some 536870900) 1 536870900 false true))
  = true.
Proof.
  assert (H1 : 0 <= 1000 < _TICKS_PERIOD)
    by (vm_compute; split; [discriminate | reflexivity]).
  assert (H2 : 1 <= max_multi_press
                      (mkButton 0 true 1000 2 175 (Some 536870900) 1
                         536870900 false true)) by (cbn; lia).
  split; [exact H1 |]. split; [exact H2 |]. split; [reflexivity |].
  apply (thresholds_across_wrap
           (mkButton 0 true 1000 2 175 (Some 536870900) 1 536870900 false true)
           1000 H1 H2).
  cbn. repeat split. lia.
Defined.

(** ** Witnesses of the lemmas on hold reports and on the invariant *)

Lemma hold_reported_once_witness :
  _is_holding (mkButton 0 true 1000 2 175 (Some 0) 1 0 false true) = false /\
  _is_pressed (mkButton 0 true 1000 2 175 (Some 0) 1 0 false true) = true /\
  fst (hold_reports [500; 1000; 1200; 5000]
         (mkButton 0 true 1000 2 175 (Some 0) 1 0 false true)) = 1%nat.
Proof.
  split; [reflexivity |]. split; [reflexivity |].
  apply (hold_reported_once [500; 1000; 1200; 5000]
           (mkButton 0 true 1000 2 175 (Some 0) 1 0 false true)
           eq_refl eq_refl).
  apply Exists_cons_tl. apply Exists_cons_hd. vm_compute. discriminate.
Defined.

Lemma pending_run_has_last_press_time_witness :
  1 <= cfg_max_multi_press default_config /\
  Button_init 0 default_config = Ok fresh_button /\
  reachable fresh_button (apply_op (PressEvent 0 0) fresh_button) /\
  0 < _press_count (apply_op (PressEvent 0 0) fresh_button) /\
  _last_press_time (apply_op (PressEvent 0 0) fresh_button) <> None.
Proof.
  assert (H1 : 1 <= cfg_max_multi_press default_config) by (cbn; lia).
  assert (H2 : reachable fresh_button (apply_op (PressEvent 0 0) fresh_button))
    by (apply reachable_step; apply reachable_init).
  assert (H3 : 0 < _press_count (apply_op (PressEvent 0 0) fresh_button))
    by (cbn; lia).
  repeat split; try assumption.
  apply (pending_run_has_last_press_time 0 default_config fresh_button _
           H1 eq_refl H2 H3).
Defined.

(** ** Printing an input *)

Section Printing.

Local Open Scope string_scope.

Lemma chars_app (s t : string) :
  list_ascii_of_string (s ++ t)
  = (list_ascii_of_string s ++ list_ascii_of_string t)%list.
Proof. induction s as [| c s IH]; cbn; [| rewrite IH]; reflexivity. Qed.

Lemma chars_inj (s t : string) :
  list_ascii_of_string s = list_ascii_of_string t -> s = t.
Proof.
  intros H. rewrite <- (string_of_list_ascii_of_string s).
  rewrite <- (string_of_list_ascii_of_string t). rewrite H. reflexivity.
Qed.

(** Two lists cut at the first occurrence of [c] agree piece by piece. *)
Lemma cut_at_first {A : Type} (c : A) (l1 : list A) :
  forall (l2 r1 r2 : list A),
    ~ In c l1 -> ~ In c l2 ->
    (l1 ++ c :: r1)%list = (l2 ++ c :: r2)%list ->
    l1 = l2 /\ r1 = r2.
Proof.
  induction l1 as [| x l1 IH]; intros [| y l2] r1 r2 H1 H2 H; cbn in *.
  - injection H as <-. auto.
  - injection H as <- _. destruct H2. left. reflexivity.
  - injection H as -> _. destruct H1. left. reflexivity.
  - injection H as <- H.
    destruct (IH l2 r1 r2) as [-> ->]; auto.
Qed.

Lemma uint_chars_no_space (d : uint) :
  ~ In " "%char (list_ascii_of_string (NilEmpty.string_of_uint d)).
Proof.
  induction d; cbn; intros H; try contradiction;
    destruct H as [H | H]; try discriminate; contradiction.
Qed.

Lemma str_chars_no_space (n : Z) :
  ~ In " "%char (list_ascii_of_string (Py.str n)).
Proof.
  destruct n as [| p | p].
  - cbn. intros [H | H]; [discriminate | contradiction].
  - rewrite str_pos. apply uint_chars_no_space.
  - rewrite str_neg. cbn. intros [H | H]; [discriminate |].
    exact (uint_chars_no_space _ H).
Qed.

Lemma str_inj (n m : Z) : Py.str n = Py.str m -> n = m.
Proof.
  intros H. pose proof (int_str_any n) as Hn. rewrite H, int_str_any in Hn.
  congruence.
Qed.

(** X21: what is printed for an input tells its action and its button number
    apart from every other: two inputs print the same exactly when they
    are equal under [__eq__]. *)
Theorem ButtonInput_str_eq_iff (x y : ButtonInput) :
  ButtonInput_str x = ButtonInput_str y <-> ButtonInput_eq x y = true.
Proof.
  unfold ButtonInput_eq.
  rewrite andb_true_iff, String.eqb_eq, Z.eqb_eq.
  split; [| intros [Ha Hn]; unfold ButtonInput_str; rewrite Ha, Hn;
            reflexivity].
  unfold ButtonInput_str. intros H.
  apply (f_equal list_ascii_of_string) in H.
  rewrite !chars_app in H.
  apply (f_equal (@List.rev ascii)) in H.
  rewrite !rev_app_distr in H.
  change (List.rev (list_ascii_of_string " on button "))
    with (" "%char :: List.rev (list_ascii_of_string " on button")) in H.
  rewrite <- !app_assoc in H. cbn [app] in H.
  apply cut_at_first in H.
  - destruct H as [Hs Hrest].
    apply (f_equal (@List.rev ascii)) in Hs. rewrite !rev_involutive in Hs.
    apply chars_inj, str_inj in Hs.
    apply app_inv_head in Hrest.
    apply (f_equal (@List.rev ascii)) in Hrest. rewrite !rev_involutive in Hrest.
    apply chars_inj in Hrest. auto.
  - rewrite <- in_rev. apply str_chars_no_space.
  - rewrite <- in_rev. apply str_chars_no_space.
Qed.

End Printing.

(** ** One short press and its timeout *)

(** X22: after one short press of an idle button, with multi-press enabled
    and a cap above 1, the release reports nothing and the timeout is
    measured from the tick of the press, whatever the tick of the release:
    a poll more than [multi_press_interval] ticks after the press reports
    SHORT_PRESS at the tick of the poll and clears the run, and a poll
    before that reports nothing and changes nothing. *)
Theorem single_press_times_out_from_press (key : Z) (b : Button)
  (pressed_at released_at : Z) :
  enable_multi_press b = true ->
  _press_count b = 0 ->
  1 < max_multi_press b ->
  short_press b (pressed_at, released_at) ->
  let b' := run [PressEvent key pressed_at; ReleaseEvent key released_at] b in
  snd (handle_event_on (Event.make key false released_at)
         (apply_op (PressEvent key pressed_at) b)) = Ok None /\
  forall (now : Z) (inputs : list ButtonInput),
    (multi_press_interval b < timestamp_diff now pressed_at ->
     handle_buttons_body now b' inputs
     = (clear_run b',
        Ok (set_add (mkInput "SHORT_PRESS" (_button_number b) now) inputs))) /\
    (timestamp_diff now pressed_at <= multi_press_interval b ->
     handle_buttons_body now b' inputs = (b', Ok inputs)).
Proof.
  intros Hen Hzero Hmax Hshort. unfold short_press in Hshort.
  cbn [fst snd] in Hshort. apply Z.ltb_lt in Hshort.
  assert (Elt : (_press_count b <? max_multi_press b) = true)
    by (apply Z.ltb_lt; lia).
  assert (Eeq : (_press_count b + 1 =? max_multi_press b) = false)
    by (apply Z.eqb_neq; lia).
  assert (Hb' : run [PressEvent key pressed_at; ReleaseEvent key released_at] b
                = mkButton (_button_number b) (enable_multi_press b)
                    (long_press_threshold b) (max_multi_press b)
                    (multi_press_interval b) (Some pressed_at)
                    (_press_count b + 1) pressed_at (_is_holding b) false).
  { cbn [run fold_left apply_op]. unfold handle_event_on.
    cbn [Event.pressed]. unfold release_transition, press_transition.
    cbn [Event.timestamp Event.key_number fst].
    cbn [_press_start_time set_is_pressed set_press_start_time
           set_last_press_time set_press_count long_press_threshold
           enable_multi_press _press_count max_multi_press].
    rewrite Elt.
    cbn [_press_start_time set_is_pressed set_press_start_time
           set_last_press_time set_press_count long_press_threshold
           enable_multi_press _press_count max_multi_press].
    rewrite Hshort, Hen. cbn [negb]. rewrite Eeq. cbn [fst].
    unfold set_is_pressed, set_press_count, set_last_press_time,
      set_press_start_time. cbn. rewrite ?Hen. reflexivity. }
  cbv zeta. split.
  - cbn [apply_op]. unfold handle_event_on.
    cbn [Event.pressed]. unfold release_transition, press_transition.
    cbn [Event.timestamp Event.key_number fst].
    cbn [_press_start_time set_is_pressed set_press_start_time
           set_last_press_time set_press_count long_press_threshold
           enable_multi_press _press_count max_multi_press].
    rewrite Elt.
    cbn [_press_start_time set_is_pressed set_press_start_time
           set_last_press_time set_press_count long_press_threshold
           enable_multi_press _press_count max_multi_press].
    rewrite Hshort, Hen. cbn [negb]. rewrite Eeq. reflexivity.
  - intros now inputs. rewrite Hb'.
    unfold handle_buttons_body, _is_held.
    cbn [_is_holding _is_pressed]. rewrite andb_false_r. cbn [andb].
    split; intros Hdiff.
    + rewrite (timeout_branch_fires now _ inputs pressed_at);
        cbn; try lia; try reflexivity.
      rewrite Hzero. reflexivity.
    + apply timeout_branch_idle. right; right.
      exists pressed_at. cbn. auto.
Qed.

Lemma single_press_times_out_from_press_witness :
  enable_multi_press (mkButton 0 true 1000 2 200 None 0 0 false false) = true /\
  _press_count (mkButton 0 true 1000 2 200 None 0 0 false false) = 0 /\
  1 < max_multi_press (mkButton 0 true 1000 2 200 None 0 0 false false) /\
  short_press (mkButton 0 true 1000 2 200 None 0 0 false false) (0, 150) /\
  handle_buttons_body 200 after_short_press [] = (after_short_press, Ok []).
Proof.
  assert (H : short_press (mkButton 0 true 1000 2 200 None 0 0 false false)
                (0, 150)) by (unfold short_press; vm_compute; reflexivity).
  split; [reflexivity |]. split; [reflexivity |]. split; [cbn; lia |].
  split; [exact H |].
  apply (single_press_times_out_from_press 0
           (mkButton 0 true 1000 2 200 None 0 0 false false) 0 150
           eq_refl eq_refl ltac:(cbn; lia) H).
  vm_compute. discriminate.
Defined.

(** ** The inputs of the two phases of a poll *)

Lemma set_add_incl (x : ButtonInput) (s : list ButtonInput) :
  incl s (set_add x s).
Proof.
  destruct (set_add_cases x s) as [-> | ->].
  - apply incl_refl.
  - apply incl_appl. apply incl_refl.
Qed.

Lemma drain_keeps_inputs (fuel : nat) :
  forall (arrivals : nat -> list Event.t) (k : nat) (buttons : list Button)
         (queue : EventQueue) (inputs : list ButtonInput) (c : nat) (p : Poll)
         (out : list ButtonInput),
    drain fuel arrivals k buttons queue inputs c = Some p ->
    poll_result p = Ok out ->
    incl inputs out.
Proof.
  induction fuel as [| fuel IH];
    intros arrivals k buttons queue inputs c p out H Hr; [discriminate |].
  destruct queue as [| event queue].
  - rewrite drain_empty in H. injection H as <-. cbn in Hr.
    injection Hr as <-. apply incl_refl.
  - rewrite drain_cons in H.
    destruct (_handle_event buttons event) as [buttons' [[input_ |] | e]].
    + eapply incl_tran; [apply (set_add_incl input_) |].
      apply (IH _ _ _ _ _ _ _ _ H Hr).
    + apply (IH _ _ _ _ _ _ _ _ H Hr).
    + injection H as <-. discriminate.
Qed.

Lemma distinct_app_head (acc l : list ButtonInput) (x : ButtonInput) :
  distinct_inputs (acc ++ x :: l) = true ->
  existsb (fun y => ButtonInput_eq y x) acc = false /\
  distinct_inputs ((acc ++ [x]) ++ l) = true.
Proof.
  intros H. split.
  - induction acc as [| a acc IH]; [reflexivity |].
    cbn in H. apply andb_true_iff in H. destruct H as [Ha Hrest].
    apply negb_true_iff in Ha. rewrite existsb_app in Ha.
    apply orb_false_iff in Ha. destruct Ha as [_ Ha]. cbn in Ha.
    apply orb_false_iff in Ha. destruct Ha as [Hxa _].
    cbn. rewrite ButtonInput_eq_sym, Hxa. cbn. apply IH. exact Hrest.
  - rewrite <- app_assoc. exact H.
Qed.

Lemma set_update_distinct_id (l : list ButtonInput) :
  forall acc : list ButtonInput,
    distinct_inputs (acc ++ l) = true -> set_update acc l = (acc ++ l)%list.
Proof.
  unfold set_update.
  induction l as [| x l IH]; intros acc H; cbn.
  - rewrite app_nil_r. reflexivity.
  - destruct (distinct_app_head acc l x H) as [Habsent Hd].
    rewrite set_add_absent by exact Habsent.
    rewrite IH by exact Hd. rewrite <- app_assoc. reflexivity.
Qed.

(** X23: every input that the checks of a poll find is in the set that
    [update] returns, as the checks built it, with the tick of the poll:
    draining the queue only adds to what the checks found. *)
Theorem update_keeps_time_phase (fuel : nat) (arrivals : nat -> list Event.t)
  (now : Z) (buttons : list Button) (queue : EventQueue) (p : Poll)
  (inputs : list ButtonInput) :
  update fuel arrivals now buttons queue = Some p ->
  poll_result p = Ok inputs ->
  exists found : list ButtonInput,
    snd (_handle_buttons now buttons) = Ok found /\ incl found inputs.
Proof.
  unfold update, _handle_buttons. intros H Hr.
  destruct (handle_buttons_loop now buttons []) as [buttons' [found | e]]
    eqn:Eloop.
  - exists found. split; [reflexivity |].
    assert (Hd : distinct_inputs found = true)
      by (apply (handle_buttons_loop_distinct _ _ _ _ _ Eloop); reflexivity).
    rewrite (set_update_distinct_id found []) in H by exact Hd.
    apply (drain_keeps_inputs _ _ _ _ _ _ _ _ _ H Hr).
  - injection H as <-. discriminate.
Qed.

Lemma update_keeps_time_phase_witness :
  update 2 no_arrivals 201 [after_short_press] [Event.make 0 true 190]
  = Some (mkPoll [mkButton 0 true 1000 2 200 (Some 190) 1 190 false true] []
            (Ok [mkInput "SHORT_PRESS" 0 201]) 1) /\
  exists found : list ButtonInput,
    snd (_handle_buttons 201 [after_short_press]) = Ok found /\
    incl found [mkInput "SHORT_PRESS" 0 201].
Proof.
  assert (H : update 2 no_arrivals 201 [after_short_press]
                [Event.make 0 true 190]
              = Some (mkPoll
                        [mkButton 0 true 1000 2 200 (Some 190) 1 190 false true]
                        [] (Ok [mkInput "SHORT_PRESS" 0 201]) 1))
    by reflexivity.
  split; [exact H |].
  apply (update_keeps_time_phase _ _ _ _ _ _ _ H eq_refl).
Defined.

(** ** The drain under a scanner that never pauses *)

Lemma arrived_ge (arrivals : nat -> list Event.t) (n : nat) :
  (forall j, arrivals j <> []) ->
  forall k : nat, (n <= arrived arrivals k n)%nat.
Proof.
  intros Hbusy. induction n as [| n IH]; intros k; [cbn; lia |].
  cbn [arrived]. specialize (IH (S k)).
  pose proof (Hbusy k) as Hk.
  destruct (arrivals k) as [| e l]; [contradiction |].
  cbn [List.length]. lia.
Qed.

(** A poll that returns on buttons that satisfy the invariant, with events
    that all name one of the buttons, returns a set. *)
Lemma update_returns_set (fuel : nat) (arrivals : nat -> list Event.t)
  (now : Z) (buttons : list Button) (queue : EventQueue) (p : Poll) :
  Forall run_pending_ok buttons ->
  Forall (key_in_range buttons) queue ->
  (forall j, Forall (key_in_range buttons) (arrivals j)) ->
  update fuel arrivals now buttons queue = Some p ->
  is_ok (poll_result p) = true.
Proof.
  intros Hall Hq Harr H. unfold update, _handle_buttons in H.
  destruct (handle_buttons_loop_ok now buttons [])
    as (new & Hloop & _ & _).
  { eapply Forall_impl; [| exact Hall].
    intros b. apply pending_ok_not_missing. }
  rewrite Hloop in H.
  apply (drain_safe _ _ _ _ _ _ _ _ (List.length buttons)) in H.
  - apply H.
  - apply length_map.
  - apply Forall_map. eapply Forall_impl; [| exact Hall].
    intros b. apply poll_one_pending_ok.
  - exact Hq.
  - exact Harr.
Qed.

(** C8, amended: the drain tests the length of the queue before every
    iteration and stops when it finds the queue empty.  A poll that returns
    normally leaves the queue empty and has consumed the events queued at
    its start and every event enqueued while it drained; with a silent
    scanner it returns after at most as many iterations as the queue was
    long.  When the queue is not empty at the start, the scanner enqueues at
    least one event during every iteration and no event makes the handler
    raise (the buttons satisfy the invariant of a button and every event
    names one of them), the poll is still running after any number of
    iterations; so it is for one button with the defaults, one queued press
    and one more press in every iteration. *)
Theorem drain_runs_until_queue_empty :
  (forall (fuel : nat) (arrivals : nat -> list Event.t) (now : Z)
          (buttons : list Button) (queue : EventQueue) (p : Poll),
      update fuel arrivals now buttons queue = Some p ->
      is_ok (poll_result p) = true ->
      poll_queue p = [] /\
      poll_consumed p
      = (List.length queue + arrived arrivals 0 (poll_consumed p))%nat) /\
  (forall (fuel : nat) (now : Z) (buttons : list Button) (queue : EventQueue),
      (List.length queue < fuel)%nat ->
      exists p : Poll,
        update fuel no_arrivals now buttons queue = Some p /\
        (poll_consumed p <= List.length queue)%nat) /\
  (forall (fuel : nat) (arrivals : nat -> list Event.t) (now : Z)
          (buttons : list Button) (queue : EventQueue),
      Forall run_pending_ok buttons ->
      Forall (key_in_range buttons) queue ->
      (forall j, Forall (key_in_range buttons) (arrivals j)) ->
      (forall j, arrivals j <> []) ->
      queue <> [] ->
      update fuel arrivals now buttons queue = None) /\
  (forall (fuel : nat) (now : Z),
      update fuel busy_scanner now [fresh_button] [Event.make 0 true 0]
      = None).
Proof.
  assert (Hconsumed :
            forall (fuel : nat) (arrivals : nat -> list Event.t) (now : Z)
                   (buttons : list Button) (queue : EventQueue) (p : Poll),
              update fuel arrivals now buttons queue = Some p ->
              is_ok (poll_result p) = true ->
              poll_queue p = [] /\
              poll_consumed p
              = (List.length queue
                 + arrived arrivals 0 (poll_consumed p))%nat).
  { intros fuel arrivals now buttons queue p H Hok.
    unfold update in H.
    destruct (_handle_buttons now buttons) as [buttons' [found | e]].
    + apply drain_consumed in H. destruct H as (n & Hn & Hrest).
      cbn in Hn. subst n. apply Hrest. exact Hok.
    + injection H as <-. discriminate. }
  split; [exact Hconsumed |]. split; [| split].
  - intros fuel now buttons queue Hfuel. unfold update.
    destruct (_handle_buttons now buttons) as [buttons' [found | e]].
    + destruct (drain_silent queue fuel 0 buttons' (set_update [] found) 0
                  Hfuel) as (p & Hp & Hle).
      exists p. split; [exact Hp | exact Hle].
    + eexists. split; [reflexivity |]. cbn. lia.
  - intros fuel arrivals now buttons queue Hall Hq Harr Hbusy Hne.
    destruct (update fuel arrivals now buttons queue) as [p |] eqn:E;
      [| reflexivity].
    exfalso.
    pose proof (update_returns_set _ _ _ _ _ _ Hall Hq Harr E) as Hok.
    destruct (Hconsumed _ _ _ _ _ _ E Hok) as [_ Hcount].
    pose proof (arrived_ge arrivals (poll_consumed p) Hbusy 0%nat) as Hge.
    destruct queue as [| event queue]; [apply Hne; reflexivity |].
    cbn [List.length] in Hcount. lia.
  - intros fuel now. unfold update.
    change (_handle_buttons now [fresh_button])
      with ([fresh_button], @Ok (list ButtonInput) []).
    cbv beta iota zeta. apply drain_busy. constructor.
Qed.
